(** * The file-upload field of wui: a shallow embedding and its properties

    The development follows [src/components/FileField] (the upload widget)
    and the [Field] class of [src/types/Field].  The widget is a React
    component: its handlers are modelled as functions from the component's
    state to a new state and the list of effects they perform, in the order
    in which the source performs them. *)

From Stdlib Require Import ZArith QArith String List Bool Lia.
From stdpp Require Import base option list strings gmap.
Import ListNotations.

Local Open Scope string_scope.
Local Open Scope list_scope.
Local Open Scope Z_scope.

(** ** JavaScript values used by the component *)

(** A JavaScript [number] as the configuration uses it: a count or a byte
    size, [+Infinity] (produced by [Field.maxFiles]) or [NaN]. *)
Inductive jsnum : Type :=
| JNum (z : Z)
| JInf
| JNaN.

(** Truthiness of a number: [0] and [NaN] are falsy. *)
Definition num_truthy (n : jsnum) : bool :=
  match n with
  | JNum z => negb (z =? 0)
  | JInf => true
  | JNaN => false
  end.

(** Truthiness of an optional number ([undefined] is falsy). *)
Definition opt_num_truthy (n : option jsnum) : bool :=
  match n with
  | Some n => num_truthy n
  | None => false
  end.

(** Truthiness of an optional boolean. *)
Definition opt_bool_truthy (b : option bool) : bool :=
  match b with
  | Some b => b
  | None => false
  end.

(** Truthiness of an optional string (the empty string is falsy). *)
Definition opt_str_truthy (s : option string) : bool :=
  match s with
  | Some s => negb (String.eqb s "")
  | None => false
  end.

(** [x > n] for an integer [x] and a number [n]. *)
Definition num_gt (x : Z) (n : jsnum) : bool :=
  match n with
  | JNum z => z <? x
  | JInf => false
  | JNaN => false
  end.

(** [x >= n] for an integer [x] and a number [n]. *)
Definition num_ge (x : Z) (n : jsnum) : bool :=
  match n with
  | JNum z => z <=? x
  | JInf => false
  | JNaN => false
  end.

(** The form value of a file field ([value?: any]): the references are
    strings. *)
Inductive jsvalue : Type :=
| VUndefined
| VNull
| VStr (s : string)
| VArr (l : list string).

(** [Array.isArray(value) ? value : []] *)
Definition array_or_empty (v : jsvalue) : list string :=
  match v with
  | VArr l => l
  | _ => []
  end.

(** ** A JavaScript [Map] with string keys

    A [Map] iterates in insertion order; [set] on a present key keeps the
    key's position.  The handlers copy the map before they change it
    ([new Map(prev)]), which a functional update models directly. *)
Module JSMap.
Section Ops.
Context {V : Type}.

Definition t : Type := list (string * V).

Definition empty : t := [].

Fixpoint get (k : string) (m : t) : option V :=
  match m with
  | [] => None
  | (k', v) :: r => if String.eqb k' k then Some v else get k r
  end.

Definition has (k : string) (m : t) : bool :=
  match get k m with
  | Some _ => true
  | None => false
  end.

Fixpoint set (k : string) (v : V) (m : t) : t :=
  match m with
  | [] => [(k, v)]
  | (k', v') :: r =>
      if String.eqb k' k then (k, v) :: r else (k', v') :: set k v r
  end.

Fixpoint delete (k : string) (m : t) : t :=
  match m with
  | [] => []
  | (k', v') :: r =>
      if String.eqb k' k then delete k r else (k', v') :: delete k r
  end.

Definition keys (m : t) : list string := List.map fst m.

Definition values (m : t) : list V := List.map snd m.

Definition size (m : t) : Z := Z.of_nat (List.length m).

(** Keys are pairwise distinct in every map built from [empty]. *)
Definition wf (m : t) : Prop := List.NoDup (keys m).
End Ops.
Arguments t : clear implicits.
End JSMap.

(** ** Data of the upload engine and of the component *)

(** A browser [File], as far as the component reads it. *)
Record File : Type := mkFile {
  file_name : string;
  file_size : Z;
  file_type : string
}.

(** [item.uploadResponse.data]: the body the server answers with. *)
Record ResponseData : Type := mkResponseData {
  rd_url : option string;
  rd_filename : option string;
  rd_originalName : option string;
  rd_size : option Z;
  rd_mimetype : option string;
  rd_error : option string
}.

Record UploadResponse : Type := mkUploadResponse {
  response_data : option ResponseData
}.

Inductive ItemState : Type :=
| StPending | StAdded | StUploading | StCancelled | StFinished | StError
| StAborted.

Definition is_finished (st : ItemState) : bool :=
  match st with
  | StFinished => true
  | _ => false
  end.

(** A batch item of the upload engine. *)
Record BatchItem : Type := mkItem {
  item_id : string;
  item_url : option string;
  item_file : option File;
  item_completed : Q;
  item_state : ItemState;
  item_uploadResponse : option UploadResponse
}.

(** An entry of the [fileMetadata] map. *)
Record Meta : Type := mkMeta {
  meta_url : option string;
  meta_filename : option string;
  meta_originalName : option string;
  meta_size : option Z;
  meta_mimetype : option string;
  meta_isUploading : option bool
}.

(** The properties of [FileField] that the handlers read. *)
Record Props : Type := mkProps {
  isMultiple : option bool;
  maxFiles : option jsnum;
  maxSize : option jsnum
}.

(** ** State of the component *)

(** What the closures created by the last render captured: the [value]
    property and the two state maps as that render saw them.  The
    listeners registered through the engine's hooks and the preview's
    button handlers are such closures. *)
Record View : Type := mkView {
  view_value : jsvalue;
  view_fileMetadata : JSMap.t Meta;
  view_uploadProgress : gmap string Q
}.

(** [fileMetadata] and [uploadProgress] are the React state the functional
    updaters ([setFileMetadata(prev => ...)]) act on; [uploadingCountRef]
    and [fileMetadataRef] are the two refs; [fileMetadataRef] is written
    by an effect after a render. *)
Record State : Type := mkState {
  fileMetadata : JSMap.t Meta;
  uploadProgress : gmap string Q;
  uploadingCountRef : Z;
  fileMetadataRef : JSMap.t Meta;
  view : View
}.

Definition initialState (v : jsvalue) : State :=
  {| fileMetadata := JSMap.empty;
     uploadProgress := ∅;
     uploadingCountRef := 0;
     fileMetadataRef := JSMap.empty;
     view := {| view_value := v;
                view_fileMetadata := JSMap.empty;
                view_uploadProgress := ∅ |} |}.

Definition setFileMetadata (f : JSMap.t Meta → JSMap.t Meta) (s : State)
  : State :=
  {| fileMetadata := f (fileMetadata s);
     uploadProgress := uploadProgress s;
     uploadingCountRef := uploadingCountRef s;
     fileMetadataRef := fileMetadataRef s;
     view := view s |}.

Definition setUploadProgress (f : gmap string Q → gmap string Q) (s : State)
  : State :=
  {| fileMetadata := fileMetadata s;
     uploadProgress := f (uploadProgress s);
     uploadingCountRef := uploadingCountRef s;
     fileMetadataRef := fileMetadataRef s;
     view := view s |}.

Definition setUploadingCount (n : Z) (s : State) : State :=
  {| fileMetadata := fileMetadata s;
     uploadProgress := uploadProgress s;
     uploadingCountRef := n;
     fileMetadataRef := fileMetadataRef s;
     view := view s |}.

(** [uploadingCountRef.current = Math.max(0, uploadingCountRef.current - 1)] *)
Definition decrementUploading (s : State) : State :=
  setUploadingCount (Z.max 0 (uploadingCountRef s - 1)) s.

(** A render with the form's current value [v] as the [value] property:
    the new closures see the current state, and the effect that follows
    the render stores [fileMetadata] in [fileMetadataRef]. *)
Definition render (v : jsvalue) (s : State) : State :=
  {| fileMetadata := fileMetadata s;
     uploadProgress := uploadProgress s;
     uploadingCountRef := uploadingCountRef s;
     fileMetadataRef := fileMetadata s;
     view := {| view_value := v;
                view_fileMetadata := fileMetadata s;
                view_uploadProgress := uploadProgress s |} |}.

(** ** Effects *)

(** The text of a notification; the numbers a message interpolates are
    kept as data (the source prints the sizes in MB with [toFixed(2)]). *)
Inductive Message : Type :=
| MsgTooLarge (name : string) (size : Z) (limit : jsnum)
| MsgMaxFiles (limit : jsnum) (name : string)
| MsgDuplicate (name : string)
| MsgText (text : string).

Inductive Transport : Type :=
| ViaBeacon
| ViaKeepaliveFetch.

(** What a handler does to the world outside the component's state.
    [OnChange] stands for a call of the [onChange] property, which the
    form always supplies; [RemovePreview] for the preview's
    [removePreview]. *)
Inductive Effect : Type :=
| ToastError (m : Message)
| ToastInfo (m : Message)
| OnChange (v : jsvalue)
| AbortItem (id : string)
| RemovePreview (id : string)
| FetchDelete (url : string)
| BeaconRefused (url : string) (filenames : list (option string))
| CleanupRequest (via : Transport) (url : string)
    (filenames : list (option string)).

Definition is_toast (e : Effect) : bool :=
  match e with
  | ToastError _ | ToastInfo _ => true
  | _ => false
  end.

Definition is_request (e : Effect) : bool :=
  match e with
  | FetchDelete _ | CleanupRequest _ _ _ => true
  | _ => false
  end.

(** The values handed to [onChange], in order. *)
Fixpoint emitted (es : list Effect) : list jsvalue :=
  match es with
  | [] => []
  | OnChange v :: r => v :: emitted r
  | _ :: r => emitted r
  end.

(** ** Handlers as state transformers that record their effects *)

Definition M (A : Type) : Type := State → A * State * list Effect.

Definition ret {A : Type} (a : A) : M A := λ s, (a, s, []).

Definition bind {A B : Type} (m : M A) (k : A → M B) : M B :=
  λ s,
    let '(a, s1, e1) := m s in
    let '(b, s2, e2) := k a s1 in
    (b, s2, e1 ++ e2).

Definition get_state : M State := λ s, (s, s, []).

Definition update (f : State → State) : M unit := λ s, (tt, f s, []).

Definition perform (e : Effect) : M unit := λ s, (tt, s, [e]).

Notation "'let*' x ':=' m 'in' k" := (bind m (λ x, k))
  (at level 10, x name, m at level 100, k at level 200, only parsing).
Notation "m ;; k" := (bind m (λ _, k))
  (at level 100, k at level 200, right associativity, only parsing).

(** The state a handler leaves, and the effects it performed. *)
Definition state_after {A : Type} (m : M A) (s : State) : State :=
  snd (fst (m s)).

Definition effects_of {A : Type} (m : M A) (s : State) : list Effect :=
  snd (m s).

Definition result_of {A : Type} (m : M A) (s : State) : A :=
  fst (fst (m s)).

(** *** The admission filter *)

(** [fileMetadataRef.current.size + uploadingCountRef.current] *)
Definition currentCount (s : State) : Z :=
  JSMap.size (fileMetadataRef s) + uploadingCountRef s.

(** [maxSize && file.size > maxSize] *)
Definition exceedsMaxSize (p : Props) (file : File) : bool :=
  match maxSize p with
  | Some n => num_truthy n && num_gt (file_size file) n
  | None => false
  end.

(** [maxFiles && currentCount >= maxFiles] *)
Definition limitReached (p : Props) (count : Z) : bool :=
  match maxFiles p with
  | Some n => num_truthy n && num_ge count n
  | None => false
  end.

(** [meta.originalName === file.name && meta.size === file.size] *)
Definition sameNameAndSize (file : File) (meta : Meta) : bool :=
  match meta_originalName meta, meta_size meta with
  | Some n, Some z => String.eqb n (file_name file) && (z =? file_size file)
  | _, _ => false
  end.

Definition isDuplicate (file : File) (m : JSMap.t Meta) : bool :=
  List.existsb (sameNameAndSize file) (JSMap.values m).

(** The number a message interpolates; the guard before the message makes
    it present. *)
Definition shown (n : option jsnum) : jsnum :=
  match n with
  | Some n => n
  | None => JNaN
  end.

Definition fileFilter (p : Props) (file : File) : M bool :=
  let* s := get_state in
  let count := currentCount s in
  if exceedsMaxSize p file then
    perform (ToastError
               (MsgTooLarge (file_name file) (file_size file)
                  (shown (maxSize p)))) ;;
    ret false
  else if limitReached p count then
    perform (ToastError (MsgMaxFiles (shown (maxFiles p)) (file_name file))) ;;
    ret false
  else if isDuplicate file (fileMetadataRef s) then
    perform (ToastError (MsgDuplicate (file_name file))) ;;
    ret false
  else
    ret true.

(** *** The listeners of [UploadHandler] *)

Definition startMeta (item : BatchItem) : Meta :=
  {| meta_url := item_url item;
     meta_filename := file_name <$> item_file item;
     meta_originalName := file_name <$> item_file item;
     meta_size := file_size <$> item_file item;
     meta_mimetype := file_type <$> item_file item;
     meta_isUploading := None |}.

Definition onItemStart (item : BatchItem) : M unit :=
  update (λ s, setUploadingCount (uploadingCountRef s + 1) s) ;;
  update (setFileMetadata (JSMap.set (item_id item) (startMeta item))).

(** [x < y] on percentages. *)
Definition Qltb (x y : Q) : bool := negb (Qle_bool y x).

Definition onItemProgress (item : BatchItem) : M unit :=
  if Qltb (item_completed item) (100 # 1) then
    update (setUploadProgress (<[item_id item := item_completed item]>))
  else
    update (setUploadProgress (base.delete (item_id item))).

(** [item.uploadResponse?.data] *)
Definition responseOf (item : BatchItem) : option ResponseData :=
  item_uploadResponse item ≫= response_data.

(** [item?.uploadResponse?.data?.error || 'Upload failed'] *)
Definition errorText (item : BatchItem) : string :=
  match responseOf item ≫= rd_error with
  | Some e => if String.eqb e "" then "Upload failed" else e
  | None => "Upload failed"
  end.

Definition onItemError (item : BatchItem) : M unit :=
  perform (ToastError (MsgText (errorText item))) ;;
  update (setFileMetadata (JSMap.delete (item_id item))) ;;
  update (setUploadProgress (base.delete (item_id item))) ;;
  update decrementUploading.

(** The reference of a finish event: [responseData?.url ?? null] when it
    is truthy. *)
Definition usableUrl (item : BatchItem) : option string :=
  match responseOf item ≫= rd_url with
  | Some u => if String.eqb u "" then None else Some u
  | None => None
  end.

(** The entry written on a confirmed finish: every listed key overrides
    the spread of the old entry. *)
Definition finishMeta (old : Meta) (rd : option ResponseData) : Meta :=
  {| meta_url := rd ≫= rd_url;
     meta_filename := rd ≫= rd_filename;
     meta_originalName := rd ≫= rd_originalName;
     meta_size := rd ≫= rd_size;
     meta_mimetype := rd ≫= rd_mimetype;
     meta_isUploading := Some false |}.

Definition mergeFinished (item : BatchItem) (prev : JSMap.t Meta)
  : JSMap.t Meta :=
  match JSMap.get (item_id item) prev with
  | Some old => JSMap.set (item_id item) (finishMeta old (responseOf item)) prev
  | None => prev
  end.

Definition onItemFinish (p : Props) (item : BatchItem) : M unit :=
  update decrementUploading ;;
  if is_finished (item_state item) then
    match usableUrl item with
    | None => ret tt
    | Some url =>
        update (setFileMetadata (mergeFinished item)) ;;
        let* s := get_state in
        if opt_bool_truthy (isMultiple p) then
          let currentValue := array_or_empty (view_value (view s)) in
          perform (OnChange (VArr (currentValue ++ [url])))
        else
          perform (OnChange (VStr url))
    end
  else
    ret tt.

(** *** Reset, cleanup and the preview's buttons *)

(** [handleFormReset]; [contains] is [form.contains(scrollContainerRef.current)]
    for the form that was reset. *)
Definition handleFormReset (p : Props) (contains : bool) : M unit :=
  if contains then
    update (setFileMetadata (λ _, JSMap.empty)) ;;
    update (setUploadProgress (λ _, ∅)) ;;
    update (setUploadingCount 0) ;;
    perform
      (OnChange (if opt_bool_truthy (isMultiple p) then VArr [] else VNull))
  else
    ret tt.

Definition cleanupUrl : string := "/api/upload/temp/cleanup".

(** [cleanupAllFiles]; [beaconAccepted] is what [navigator.sendBeacon]
    returns. *)
Definition cleanupAllFiles (beaconAccepted : bool) : M unit :=
  let* s := get_state in
  let filenames := List.map meta_filename (JSMap.values (fileMetadataRef s)) in
  if (List.length filenames =? 0)%nat then
    ret tt
  else if beaconAccepted then
    perform (CleanupRequest ViaBeacon cleanupUrl filenames)
  else
    perform (BeaconRefused cleanupUrl filenames) ;;
    perform (CleanupRequest ViaKeepaliveFetch cleanupUrl filenames).

(** [handleCancel]; the console output is not modelled. *)
Definition handleCancel (id : string) : M unit :=
  perform (AbortItem id) ;;
  perform (RemovePreview id) ;;
  update (setUploadProgress (base.delete id)) ;;
  update decrementUploading ;;
  perform (ToastInfo (MsgText "Upload cancelled")).

(** The template literal [`/api/upload/temp/${metadata?.filename}`]. *)
Definition deleteUrl (metadata : option Meta) : string :=
  String.append "/api/upload/temp/"
    match metadata ≫= meta_filename with
    | Some n => n
    | None => "undefined"
    end.

(** [url !== metadata?.url] *)
Definition differsFrom (metadata : option Meta) (url : string) : bool :=
  match metadata ≫= meta_url with
  | Some u => negb (String.eqb url u)
  | None => true
  end.

(** [handleRemove].  [fileMetadata] and [value] are the ones of the
    closure; the value is computed in the [finally] block, whether or not
    the request fails. *)
Definition handleRemove (p : Props) (id : string) : M unit :=
  perform (RemovePreview id) ;;
  let* s := get_state in
  let metadata := JSMap.get id (view_fileMetadata (view s)) in
  update (setFileMetadata (JSMap.delete id)) ;;
  perform (FetchDelete (deleteUrl metadata)) ;;
  let newValue :=
    match opt_bool_truthy (isMultiple p), view_value (view s) with
    | true, VArr value => VArr (List.filter (differsFrom metadata) value)
    | _, _ => VNull
    end in
  perform (OnChange newValue).

(** The close button of [CustomPreview]: nothing is rendered for an item
    the closure's [fileMetadata] does not hold; an item with a progress
    entry is cancelled, any other is removed. *)
Definition onClick (p : Props) (id : string) : M unit :=
  let* s := get_state in
  match JSMap.get id (view_fileMetadata (view s)) with
  | None => ret tt
  | Some _ =>
      match view_uploadProgress (view s) !! id with
      | Some _ => handleCancel id
      | None => handleRemove p id
      end
  end.

(** ** The [Field] class *)
Module Field.

Record FieldConfig : Type := mkConfig {
  cfg_isMultiple : option bool;
  cfg_maxFiles : option jsnum;
  cfg_maxSize : option jsnum
}.

(** [this._config.isMultiple || false] *)
Definition isMultiple (c : FieldConfig) : bool :=
  opt_bool_truthy (cfg_isMultiple c).

Definition maxSize (c : FieldConfig) : option jsnum := cfg_maxSize c.

(** [this.isMultiple ? this._config.maxFiles || +Infinity : 1] *)
Definition maxFiles (c : FieldConfig) : jsnum :=
  if isMultiple c then
    match cfg_maxFiles c with
    | Some n => if num_truthy n then n else JInf
    | None => JInf
    end
  else JNum 1.

(** The properties the form hands to [FileField] for a field of type
    [file]. *)
Definition fileFieldProps (c : FieldConfig) : Props :=
  mkProps (Some (isMultiple c)) (Some (maxFiles c)) (maxSize c).

End Field.

(** ** The component inside its form

    The form owns the committed value: [onChange] stores the payload, and
    the next render hands it back as the [value] property.  [accepted]
    lists the files the admission filter let through, as the upload engine
    learns them; [log] collects every effect. *)
Record System : Type := mkSystem {
  component : State;
  formValue : jsvalue;
  accepted : list File;
  log : list Effect
}.

Definition initialSystem (v : jsvalue) : System :=
  {| component := initialState v;
     formValue := v;
     accepted := [];
     log := [] |}.

(** The stimuli the component reacts to. *)
Inductive Event : Type :=
| EvFilter (file : File)
| EvItemStart (item : BatchItem)
| EvItemProgress (item : BatchItem)
| EvItemError (item : BatchItem)
| EvItemFinish (item : BatchItem)
| EvClick (id : string)
| EvFormReset (contains : bool)
| EvCleanup (beaconAccepted : bool)
| EvRender.

(** Run a handler in the system: its effects are logged and the last
    value it hands to [onChange], if any, becomes the form's value. *)
Definition dispatch {A : Type} (m : M A) (sys : System) : System :=
  {| component := state_after m (component sys);
     formValue := List.last (emitted (effects_of m (component sys)))
                    (formValue sys);
     accepted := accepted sys;
     log := log sys ++ effects_of m (component sys) |}.

Definition step (p : Props) (ev : Event) (sys : System) : System :=
  match ev with
  | EvFilter file =>
      let sys' := dispatch (fileFilter p file) sys in
      if result_of (fileFilter p file) (component sys) then
        {| component := component sys';
           formValue := formValue sys';
           accepted := accepted sys ++ [file];
           log := log sys' |}
      else sys'
  | EvItemStart item => dispatch (onItemStart item) sys
  | EvItemProgress item => dispatch (onItemProgress item) sys
  | EvItemError item => dispatch (onItemError item) sys
  | EvItemFinish item => dispatch (onItemFinish p item) sys
  | EvClick id => dispatch (onClick p id) sys
  | EvFormReset contains => dispatch (handleFormReset p contains) sys
  | EvCleanup beaconAccepted => dispatch (cleanupAllFiles beaconAccepted) sys
  | EvRender =>
      {| component := render (formValue sys) (component sys);
         formValue := formValue sys;
         accepted := accepted sys;
         log := log sys |}
  end.

Definition run (p : Props) (evs : list Event) (sys : System) : System :=
  List.fold_left (λ sys ev, step p ev sys) evs sys.

(** ** Sample data *)
Module Sample.

Definition fileA : File := mkFile "a.png" 1200 "image/png".
Definition fileB : File := mkFile "b.png" 3400 "image/png".
Definition fileC : File := mkFile "c.pdf" 5600 "application/pdf".

Definition idA : string := "batch-1.item-1".
Definition idB : string := "batch-1.item-2".
Definition idC : string := "batch-1.item-3".

Definition started (id : string) (f : File) : BatchItem :=
  mkItem id None (Some f) (0 # 1) StAdded None.

Definition uploading (id : string) (f : File) (percent : Q) : BatchItem :=
  mkItem id None (Some f) percent StUploading None.

(** The item of a finish event whose response carries reference [ref] and
    storage name [stored]. *)
Definition finished (id : string) (f : File) (ref stored : string)
  : BatchItem :=
  mkItem id None (Some f) (100 # 1) StFinished
    (Some (mkUploadResponse
             (Some (mkResponseData (Some ref) (Some stored)
                      (Some (file_name f)) (Some (file_size f))
                      (Some (file_type f)) None)))).

(** A finish event whose response has no [url]. *)
Definition finishedWithoutUrl (id : string) (f : File) : BatchItem :=
  mkItem id None (Some f) (100 # 1) StFinished
    (Some (mkUploadResponse
             (Some (mkResponseData None (Some "stored.bin")
                      (Some (file_name f)) (Some (file_size f))
                      (Some (file_type f)) None)))).

Definition failed (id : string) (f : File) : BatchItem :=
  mkItem id None (Some f) (40 # 1) StError
    (Some (mkUploadResponse
             (Some (mkResponseData None None None None None
                      (Some "disk full"))))).

Definition multiple (limit : option jsnum) : Props :=
  mkProps (Some true) limit None.

Definition single : Props := mkProps (Some false) (Some (JNum 1)) None.

(** Three files chosen in one selection, then started by the engine. *)
Definition batchOfThree : list Event :=
  [EvFilter fileA; EvFilter fileB; EvFilter fileC;
   EvItemStart (started idA fileA);
   EvItemStart (started idB fileB);
   EvItemStart (started idC fileC);
   EvRender].

(** One file chosen, started and rendered. *)
Definition oneUploading : list Event :=
  [EvFilter fileA; EvItemStart (started idA fileA); EvRender].

(** Two uploads start together; B finishes first with reference r2, then
    A finishes with reference r1, and the component is not rendered
    between the two finish events. *)
Definition finishBackToBack : list Event :=
  [EvFilter fileA; EvFilter fileB;
   EvItemStart (started idA fileA);
   EvItemStart (started idB fileB);
   EvRender;
   EvItemFinish (finished idB fileB "r2" "stored-2.png");
   EvItemFinish (finished idA fileA "r1" "stored-1.png")].

(** The same, with a render between the two finish events. *)
Definition finishWithRender : list Event :=
  [EvFilter fileA; EvFilter fileB;
   EvItemStart (started idA fileA);
   EvItemStart (started idB fileB);
   EvRender;
   EvItemFinish (finished idB fileB "r2" "stored-2.png");
   EvRender;
   EvItemFinish (finished idA fileA "r1" "stored-1.png")].

(** An upload in progress, as rendered. *)
Definition inProgress : list Event :=
  [EvFilter fileA;
   EvItemStart (started idA fileA);
   EvItemProgress (uploading idA fileA (40 # 1));
   EvRender].

(** The user cancels the upload in progress. *)
Definition cancelInProgress : list Event := inProgress ++ [EvClick idA].

(** The upload in progress fails. *)
Definition failInProgress : list Event :=
  inProgress ++ [EvItemError (failed idA fileA)].

(** A finishes and is rendered while B is still uploading. *)
Definition oneFinishedOneUploading : list Event :=
  [EvFilter fileA; EvFilter fileB;
   EvItemStart (started idA fileA);
   EvItemStart (started idB fileB);
   EvItemFinish (finished idA fileA "r1" "stored-1.png");
   EvRender].

(** Two finished uploads, rendered with both references committed. *)
Definition twoFinished : list Event :=
  [EvFilter fileA; EvFilter fileB;
   EvItemStart (started idA fileA);
   EvItemStart (started idB fileB);
   EvRender;
   EvItemFinish (finished idB fileB "r2" "stored-2.png");
   EvRender;
   EvItemFinish (finished idA fileA "r1" "stored-1.png");
   EvRender].


(** The oversized-file scenario: a limit of 1,000,000 bytes and a file of
    2,000,000 bytes. *)
Definition sizeLimited : Props :=
  mkProps (Some true) None (Some (JNum 1000000)).
Definition bigFile : File := mkFile "movie.mp4" 2000000 "video/mp4".

End Sample.

(** ** The rules of the admission filter, as the specification words them *)

(** A maximum size is configured and the file's size exceeds it. *)
Definition tooLarge (p : Props) (file : File) : Prop :=
  ∃ n, maxSize p = Some (JNum n) ∧ n ≠ 0 ∧ n < file_size file.

(** A maximum count is configured and the tracked-plus-in-flight count is
    at or above it. *)
Definition atLimit (p : Props) (s : State) : Prop :=
  ∃ n, maxFiles p = Some (JNum n) ∧ n ≠ 0 ∧ n <= currentCount s.

(** A tracked item has the same name and the same byte size. *)
Definition duplicate (file : File) (s : State) : Prop :=
  ∃ meta, In meta (JSMap.values (fileMetadataRef s)) ∧
          meta_originalName meta = Some (file_name file) ∧
          meta_size meta = Some (file_size file).

(** The filter's answer and the notifications it must emit, rule by rule,
    first match first. *)
Definition admissionRules (p : Props) (file : File) (s : State)
  (answer : bool) (es : list Effect) : Prop :=
  (tooLarge p file →
     answer = false ∧
     es = [ToastError (MsgTooLarge (file_name file) (file_size file)
                         (shown (maxSize p)))]) ∧
  (¬ tooLarge p file → atLimit p s →
     answer = false ∧
     es = [ToastError (MsgMaxFiles (shown (maxFiles p)) (file_name file))]) ∧
  (¬ tooLarge p file → ¬ atLimit p s → duplicate file s →
     answer = false ∧ es = [ToastError (MsgDuplicate (file_name file))]) ∧
  (¬ tooLarge p file → ¬ atLimit p s → ¬ duplicate file s →
     answer = true ∧ es = []).

(** ** Invariants and predicates used by the statements *)

(** Every progress entry is strictly below 100. *)
Definition progressBelow100 (s : State) : Prop :=
  map_Forall (λ _ percent, (percent < 100 # 1)%Q) (uploadProgress s).

(** The bound on tracked plus in-flight items for a configured maximum. *)
Definition withinLimit (p : Props) (s : State) : Prop :=
  match maxFiles p with
  | Some (JNum n) => JSMap.size (fileMetadata s) + uploadingCountRef s <= n
  | _ => True
  end.

(** An entry is confirmed by the server once a finish event with a usable
    reference has rewritten it; only that rewrite sets [isUploading]. *)
Definition confirmed (meta : Meta) : bool :=
  match meta_isUploading meta with
  | Some false => true
  | _ => false
  end.

(** The [remoteName] of the specification's data model: the
    server-assigned storage name of an item, present only after a
    successful upload. *)
Definition remoteName (meta : Meta) : option string :=
  if confirmed meta then meta_filename meta else None.

(** The predicate [handleRemove] filters the value with when the removed
    entry's reference is [u]. *)
Definition keepOthers (u : string) (url : string) : bool :=
  negb (String.eqb url u).

(** No entry for [id] in the tracker or in the progress map. *)
Definition purged (id : string) (s : State) : Prop :=
  JSMap.get id (fileMetadata s) = None ∧ uploadProgress s !! id = None.

(** ** More of the upload component *)

(** [x < n] for an integer [x] and a number [n]. *)
Definition num_lt (x : Z) (n : jsnum) : bool :=
  match n with
  | JNum z => x <? z
  | JInf => true
  | JNaN => false
  end.

(** The condition under which a render shows the upload button:
    [!maxFiles || fileMetadata.size + uploadingCountRef.current < maxFiles],
    with the state's [fileMetadata] as that render sees it. *)
Definition showUploadButton (p : Props) (s : State) : bool :=
  match maxFiles p with
  | Some n =>
      negb (num_truthy n) ||
      num_lt (JSMap.size (fileMetadata s) + uploadingCountRef s) n
  | None => true
  end.

(** The item a lifecycle event or a click is about. *)
Definition eventItem (ev : Event) : option string :=
  match ev with
  | EvItemStart item | EvItemProgress item | EvItemError item
  | EvItemFinish item => Some (item_id item)
  | EvClick id => Some id
  | _ => None
  end.

(** The references a form value holds. *)
Definition references (v : jsvalue) : list string :=
  match v with
  | VArr l => l
  | VStr s => [s]
  | _ => []
  end.

(** The start events of a trace. *)
Fixpoint startedItems (evs : list Event) : list BatchItem :=
  match evs with
  | [] => []
  | EvItemStart item :: r => item :: startedItems r
  | _ :: r => startedItems r
  end.

(** *** The label of a preview that is not an image *)

From Stdlib Require Import Ascii.

(** [filename.split('.')]: the segments between the dots, at least one. *)
Fixpoint splitDots (s : string) : list string :=
  match s with
  | EmptyString => [EmptyString]
  | String c r =>
      if Ascii.eqb c "."%char then EmptyString :: splitDots r
      else
        match splitDots r with
        | h :: t => String c h :: t
        | [] => [String c EmptyString]
        end
  end.

(** Whether a string holds a dot. *)
Fixpoint hasDot (s : string) : bool :=
  match s with
  | EmptyString => false
  | String c r => Ascii.eqb c "."%char || hasDot r
  end.

(** [metadata?.originalName || name || ''] *)
Definition previewFilename (metadata : option Meta) (name : option string)
  : string :=
  if opt_str_truthy (metadata ≫= meta_originalName)
  then default "" (metadata ≫= meta_originalName)
  else if opt_str_truthy name then default "" name
  else "".

Section ExtensionLabel.
(** [String.prototype.toUpperCase], which the model leaves open. *)
Variable toUpperCase : string → string.

(** The text drawn on the file icon: the file name split at the dots; the
    last segment in upper case when there are several, [FILE]
    otherwise. *)
Definition extensionLabel (metadata : option Meta) (name : option string)
  : string :=
  let parts := splitDots (previewFilename metadata name) in
  if (1 <? List.length parts)%nat
  then toUpperCase (List.last parts "")
  else "FILE".

End ExtensionLabel.

(** ** The [Field] class: default values *)
Module FieldClass.

Inductive FieldType : Type :=
| TText | TEmail | TPassword | TNumber | TCheckbox | TDate | TDatetimeLocal
| TTime | TRadio | TSelect | TAsyncSelect | TCreatableSelect
| TAsyncCreatableSelect | TTextarea | TFile.

(** The part of [FieldConfig] the modelled methods read; [files] holds
    [isMultiple], [maxFiles] and [maxSize]; [min] and [max] are a number
    or a string. *)
Record Config : Type := mkConfig {
  type : FieldType;
  name : string;
  label : string;
  isRequired : option bool;
  min : option (jsnum + string);
  max : option (jsnum + string);
  revalidates : option (list string);
  files : Field.FieldConfig
}.

(** The values [getDefaultValue] produces: a string, null or a list, a
    number, a boolean, or the date of the call ([new Date()]). *)
Inductive jsany : Type :=
| AnyValue (v : jsvalue)
| AnyNumber (n : jsnum)
| AnyBool (b : bool)
| AnyNow.

Definition getDefaultValue (c : Config) : jsany :=
  match type c with
  | TFile =>
      AnyValue (if opt_bool_truthy (Field.cfg_isMultiple (files c))
                then VArr [] else VNull)
  | TNumber =>
      match min c with
      | Some (inl n) => AnyNumber n
      | Some (inr s) => AnyValue (VStr s)
      | None => AnyNumber (JNum 0)
      end
  | TCheckbox => AnyBool false
  | TDate | TDatetimeLocal => AnyNow
  | TTime => AnyValue (VStr "00:00")
  | TSelect | TAsyncSelect | TCreatableSelect | TAsyncCreatableSelect =>
      AnyValue (if opt_bool_truthy (Field.cfg_isMultiple (files c))
                then VArr [] else VNull)
  | TTextarea | TText | TEmail | TPassword | TRadio => AnyValue (VStr "")
  end.

End FieldClass.

(** ** [FieldFactory.createTimeSchema] *)
Module TimeSchema.
Import FieldClass.

(** A character class [lo-hi]. *)
Definition inRange (lo hi c : ascii) : bool :=
  (N_of_ascii lo <=? N_of_ascii c)%N && (N_of_ascii c <=? N_of_ascii hi)%N.

(** [/^([01]\d|2[0-3]):([0-5]\d)$/.test(val)] *)
Definition matchesTime (s : string) : bool :=
  match s with
  | String h1 (String h2 (String c (String m1 (String m2 EmptyString)))) =>
      ((inRange "0" "1" h1 && inRange "0" "9" h2)
       || (Ascii.eqb h1 "2" && inRange "0" "3" h2))
      && Ascii.eqb c ":"
      && (inRange "0" "5" m1 && inRange "0" "9" m2)
  | _ => false
  end.

(** [!val] for an optional string. *)
Definition absent (val : option string) : bool := negb (opt_str_truthy val).

(** [a >= b] and [a <= b] on strings: the order of the code units. *)
Definition str_ge (a b : string) : bool := String.leb b a.
Definition str_le (a b : string) : bool := String.leb a b.

(** The refinement added for a required field:
    [val !== undefined && val !== ''] *)
Definition requiredCheck (val : option string) : bool :=
  match val with
  | Some s => negb (String.eqb s "")
  | None => false
  end.

(** [!val || regex.test(val)] *)
Definition formatCheck (val : option string) : bool :=
  absent val || matchesTime (default "" val).

(** The lower bound: checked only for a present value and a [min] that is
    a string. *)
Definition minCheck (c : Config) (val : option string) : bool :=
  if absent val then true
  else
    match min c with
    | Some (inr m) => str_ge (default "" val) m
    | _ => true
    end.

Definition maxCheck (c : Config) (val : option string) : bool :=
  if absent val then true
  else
    match max c with
    | Some (inr m) => str_le (default "" val) m
    | _ => true
    end.

(** What a refinement reports when it fails. *)
Inductive Issue : Type :=
| IsRequired (label : string)
| NotATime (label : string)
| BeforeMin (label : string) (min : option (jsnum + string))
| AfterMax (label : string) (max : option (jsnum + string)).

(** The refinements of the schema, in the order the source chains them on
    [z.string().optional()]. *)
Definition refinements (c : Config)
  : list ((option string → bool) * Issue) :=
  (if opt_bool_truthy (isRequired c)
   then [(requiredCheck, IsRequired (label c))] else [])
  ++ [(formatCheck, NotATime (label c));
      (minCheck c, BeforeMin (label c) (min c));
      (maxCheck c, AfterMax (label c) (max c))].

(** The issues of a value: those of the refinements that fail. *)
Definition issues (c : Config) (val : option string) : list Issue :=
  List.map snd (List.filter (λ r, negb (fst r val)) (refinements c)).

Definition accepts (c : Config) (val : option string) : bool :=
  match issues c val with
  | [] => true
  | _ => false
  end.

(** The value of a digit character. *)
Definition digit (c : ascii) : Z := Z.of_N (N_of_ascii c) - 48.

(** The minutes since midnight a string of the form HH:MM stands for. *)
Definition minutesOf (s : string) : Z :=
  match s with
  | String h1 (String h2 (String _ (String m1 (String m2 EmptyString)))) =>
      (10 * digit h1 + digit h2) * 60 + (10 * digit m1 + digit m2)
  | _ => 0
  end.

End TimeSchema.

(** Sample fields. *)
Module SampleFields.
Import FieldClass.

(** A required time field for office hours. *)
Definition officeHours : Config :=
  mkConfig TTime "start" "Start" (Some true)
    (Some (inr "08:00")) (Some (inr "18:00")) None
    (Field.mkConfig None None None).

(** A field for several attachments. *)
Definition attachments : Config :=
  mkConfig TFile "attachments" "Attachments" None None None None
    (Field.mkConfig (Some true) (Some (JNum 3)) None).

(** A field for one picture. *)
Definition avatar : Config :=
  mkConfig TFile "avatar" "Avatar" None None None None
    (Field.mkConfig None None None).

Definition title : Config :=
  mkConfig TText "title" "Title" (Some true) None None (Some ["slug"])
    (Field.mkConfig None None None).

Definition slug : Config :=
  mkConfig TText "slug" "Slug" None None None None
    (Field.mkConfig None None None).

Definition agree : Config :=
  mkConfig TCheckbox "agree" "Agree" None None None None
    (Field.mkConfig None None None).

End SampleFields.

(** ** The [Form] class and [FormBuilder]

    An object used as a record ([Record<string, ...>]) is a [JSMap]: its
    entries in insertion order, one per key.  (Keys that read as array
    indices, which JavaScript enumerates first, are left out of the
    model; they change the order of enumeration only, not what a key
    resolves to.) *)
Module FormClass.
Import FieldClass.

Record Section : Type := mkSection {
  title : option string;
  fields : JSMap.t Config;
  className : option string
}.

(** [Object.assign(target, source)], and the spread
    [{ ...target, ...source }]: the entries of [source] are written into
    [target] one after the other. *)
Definition assign {V : Type} (target source : JSMap.t V) : JSMap.t V :=
  List.fold_left (λ acc kv, JSMap.set (fst kv) (snd kv) acc) source target.

(** [{ ...a, ...b }] *)
Definition spread {V : Type} (a b : JSMap.t V) : JSMap.t V :=
  assign (assign JSMap.empty a) b.

(** [_extractFieldsFromSections] *)
Definition extractFieldsFromSections (sections : list Section)
  : JSMap.t Config :=
  List.fold_left (λ acc section, assign acc (fields section)) sections
    JSMap.empty.

(** The loop [for (const [key, field] of Object.entries(fields))
    defaults[key] = field.getDefaultValue()] on the defaults so far. *)
Definition addDefaults (fields : JSMap.t Config) (defaults : JSMap.t jsany)
  : JSMap.t jsany :=
  List.fold_left
    (λ acc kv, JSMap.set (fst kv) (getDefaultValue (snd kv)) acc)
    fields defaults.

(** [_buildDefaultValues] *)
Definition buildDefaultValues (fields : JSMap.t Config) : JSMap.t jsany :=
  addDefaults fields JSMap.empty.

(** A form: its sections, its fields and its default values; the schema,
    built on demand from the fields, is not modelled. *)
Record Form : Type := mkForm {
  form_sections : list Section;
  form_fields : JSMap.t Config;
  form_defaultValues : JSMap.t jsany
}.

(** The constructor. *)
Definition newForm (sections : list Section) : Form :=
  {| form_sections := sections;
     form_fields := extractFieldsFromSections sections;
     form_defaultValues :=
       buildDefaultValues (extractFieldsFromSections sections) |}.

Definition setDefaultValues (values : JSMap.t jsany) (form : Form) : Form :=
  {| form_sections := form_sections form;
     form_fields := form_fields form;
     form_defaultValues := spread (form_defaultValues form) values |}.

Record FormBuilder : Type := mkBuilder {
  builder_sections : list Section;
  builder_defaultValues : JSMap.t jsany
}.

Definition newBuilder : FormBuilder :=
  {| builder_sections := []; builder_defaultValues := JSMap.empty |}.

(** [section(section)] *)
Definition section (s : Section) (b : FormBuilder) : FormBuilder :=
  {| builder_sections := builder_sections b ++ [s];
     builder_defaultValues := addDefaults (fields s) (builder_defaultValues b) |}.

(** [sections(sections)] *)
Definition sections (ss : list Section) (b : FormBuilder) : FormBuilder :=
  List.fold_left (λ acc s, section s acc) ss b.

(** [defaultValues(values)] *)
Definition defaultValues (values : JSMap.t jsany) (b : FormBuilder)
  : FormBuilder :=
  {| builder_sections := builder_sections b;
     builder_defaultValues := spread (builder_defaultValues b) values |}.

(** [build()]: the form of the builder's sections, given the builder's
    default values. *)
Definition build (b : FormBuilder) : Form :=
  setDefaultValues (builder_defaultValues b) (newForm (builder_sections b)).

(** Every section's record has one entry per key. *)
Definition wellFormed (ss : list Section) : Prop :=
  Forall (λ s, JSMap.wf (fields s)) ss.

End FormClass.

(** ** The [Form] component: validation on focus *)
Module FormComponent.
Import FieldClass FormClass.

(** [Array.prototype.indexOf]: the first index of [x], or -1. *)
Fixpoint indexOf (x : string) (l : list string) : Z :=
  match l with
  | [] => -1
  | y :: r =>
      if String.eqb y x then 0
      else if indexOf x r <? 0 then -1 else indexOf x r + 1
  end.

(** [l.slice(0, n)] and [l.slice(n)] for an [n] that is not negative. *)
Definition sliceTo (n : Z) (l : list string) : list string :=
  List.firstn (Z.to_nat n) l.
Definition sliceFrom (n : Z) (l : list string) : list string :=
  List.skipn (Z.to_nat n) l.

(** What the handlers ask of the form library. *)
Inductive FormEffect : Type :=
| Trigger (name : string)
| ClearErrors (names : list string).

(** The names of all fields, section by section. *)
Definition fieldNames (form : Form) : list string :=
  List.map name
    (List.flat_map (λ s, JSMap.values (fields s)) (form_sections form)).

(** [validateFormFields]; [touched] is [touchedFields[name]] as a
    boolean. *)
Definition validateFormFields (form : Form) (touched : string → bool)
  (field : Config) : list FormEffect :=
  let names := fieldNames form in
  let currentIndex := indexOf (name field) names in
  let beforeFields := sliceTo (currentIndex + 1) names in
  let afterFields := sliceFrom (currentIndex + 1) names in
  let untouchedAfterFields :=
    List.filter (λ n, negb (touched n)) afterFields in
  List.map Trigger beforeFields ++ [ClearErrors untouchedAfterFields].

(** The names a run of effects validates and the names whose errors it
    clears. *)
Definition triggered (es : list FormEffect) : list string :=
  List.flat_map (λ e, match e with Trigger n => [n] | _ => [] end) es.

Definition cleared (es : list FormEffect) : list string :=
  List.flat_map (λ e, match e with ClearErrors ns => ns | _ => [] end) es.

End FormComponent.

(** Sample sections and forms. *)
Module SampleForms.
Import FieldClass FormClass.

(** A second declaration of [title], as a checkbox. *)
Definition titleFlag : Config :=
  mkConfig TCheckbox "title" "Title" None None None None
    (Field.mkConfig None None None).

Definition general : Section :=
  mkSection (Some "General")
    [("title", SampleFields.title); ("slug", SampleFields.slug)] None.

Definition uploads : Section :=
  mkSection (Some "Files")
    [("avatar", SampleFields.avatar);
     ("attachments", SampleFields.attachments)] None.

Definition overriding : Section :=
  mkSection None [("title", titleFlag)] None.

Definition explicit : JSMap.t jsany :=
  [("title", AnyValue (VStr "Untitled"))].

End SampleForms.

(** ** The [Field] component: the value of a select *)
Module FieldComponent.

(** An option of a select. *)
Record Option : Type := mkOption {
  option_label : string;
  option_value : string
}.

(** What the form may hold for a select ([controllerField.value]) and
    what the select may report ([Option | Option[] | null]). *)
Inductive selvalue : Type :=
| SelUndefined
| SelNull
| SelOption (o : Option)
| SelOptions (l : list Option).

Definition sel_truthy (v : selvalue) : bool :=
  match v with
  | SelUndefined | SelNull => false
  | SelOption _ | SelOptions _ => true
  end.

(** The [value] property of the select:
    [isMultiple ? (Array.isArray(value) ? value : []) : (value ?? null)] *)
Definition selectValue (isMultiple : bool) (value : selvalue) : selvalue :=
  if isMultiple then
    match value with
    | SelOptions l => SelOptions l
    | _ => SelOptions []
    end
  else
    match value with
    | SelUndefined | SelNull => SelNull
    | other => other
    end.

(** The value the select's [onChange] hands to the form:
    [option ? option : []] in multiple mode, [option ? option : null]
    otherwise. *)
Definition selectOnChange (isMultiple : bool) (option : selvalue)
  : selvalue :=
  if isMultiple then
    if sel_truthy option then option else SelOptions []
  else
    if sel_truthy option then option else SelNull.

End FieldComponent.

(** ** Traces of whole selections *)

(** The in-flight counter after each event of a trace. *)
Fixpoint countersAlong (p : Props) (evs : list Event) (sys : System)
  : list Z :=
  match evs with
  | [] => []
  | ev :: r =>
      uploadingCountRef (component (step p ev sys))
        :: countersAlong p r (step p ev sys)
  end.

Module Scenarios.
Import Sample.

(** Three files chosen in one selection: the engine asks the filter about
    each of them before it starts any, then uploads them, at most two at
    a time. *)
Definition selectionOfThree : list Event :=
  [EvFilter fileA; EvFilter fileB; EvFilter fileC;
   EvItemStart (started idA fileA);
   EvItemStart (started idB fileB);
   EvRender;
   EvItemFinish (finished idA fileA "r1" "stored-1.png");
   EvRender;
   EvItemStart (started idC fileC);
   EvRender;
   EvItemFinish (finished idB fileB "r2" "stored-2.png");
   EvRender;
   EvItemFinish (finished idC fileC "r3" "stored-3.pdf");
   EvRender].

(** A single-mode field whose configuration carries [maxFiles = 5]. *)
Definition singleField : Field.FieldConfig :=
  Field.mkConfig None (Some (JNum 5)) None.

(** Two files dropped on a single-mode field in one selection; the engine
    uploads them one after the other. *)
Definition twoDropped : list Event :=
  [EvFilter fileA; EvFilter fileB;
   EvItemStart (started idA fileA);
   EvRender;
   EvItemFinish (finished idA fileA "r1" "stored-1.png");
   EvRender;
   EvItemStart (started idB fileB);
   EvRender;
   EvItemFinish (finished idB fileB "r2" "stored-2.png");
   EvRender].


End Scenarios.

(** ** Upper case for the characters of ASCII *)

(** [toUpperCase] on a character of ASCII: a to z become A to Z, every
    other character stays. *)
Definition upperAscii (c : ascii) : ascii :=
  if TimeSchema.inRange "a" "z" c
  then ascii_of_N (N_of_ascii c - 32)
  else c.

(** [toUpperCase] on a string of ASCII characters. *)
Fixpoint upperAsciiString (s : string) : string :=
  match s with
  | EmptyString => EmptyString
  | String c r => String (upperAscii c) (upperAsciiString r)
  end.

(** * Properties *)

(** ** The map operations *)
Module JSMapFacts.
Import JSMap.
Section Facts.
Context {V : Type}.
Implicit Types (m : JSMap.t V) (k : string) (v : V).

Lemma get_set_eq m k v : get k (set k v m) = Some v.
Proof.
  induction m as [|[k' v'] r IH]; simpl.
  - now rewrite String.eqb_refl.
  - destruct (String.eqb_spec k' k) as [->|Hne]; simpl.
    + now rewrite String.eqb_refl.
    + destruct (String.eqb_spec k' k); [contradiction | exact IH].
Qed.

Lemma get_set_ne m k k' v : k ≠ k' → get k' (set k v m) = get k' m.
Proof.
  intros Hne.
  induction m as [|[k0 v0] r IH]; simpl.
  - destruct (String.eqb_spec k k'); [contradiction | reflexivity].
  - destruct (String.eqb_spec k0 k) as [->|Hk]; simpl.
    + destruct (String.eqb_spec k k'); [contradiction | reflexivity].
    + destruct (String.eqb_spec k0 k'); [reflexivity | exact IH].
Qed.

Lemma get_delete_eq m k : get k (delete k m) = None.
Proof.
  induction m as [|[k' v'] r IH]; simpl; [reflexivity|].
  destruct (String.eqb_spec k' k) as [->|Hne]; simpl; [exact IH|].
  destruct (String.eqb_spec k' k); [contradiction | exact IH].
Qed.

Lemma get_delete_ne m k k' : k ≠ k' → get k' (delete k m) = get k' m.
Proof.
  intros Hne.
  induction m as [|[k0 v0] r IH]; simpl; [reflexivity|].
  destruct (String.eqb_spec k0 k) as [->|Hk]; simpl.
  - destruct (String.eqb_spec k k'); [contradiction | exact IH].
  - destruct (String.eqb_spec k0 k'); [reflexivity | exact IH].
Qed.

Lemma has_delete m k : has k (delete k m) = false.
Proof. unfold has. now rewrite get_delete_eq. Qed.

Lemma get_In_values m k v : get k m = Some v → In v (values m).
Proof.
  induction m as [|[k' v'] r IH]; simpl; [discriminate|].
  destruct (String.eqb k' k); intros H.
  - left. congruence.
  - right. now apply IH.
Qed.

Lemma size_nonneg m : 0 <= size m.
Proof. unfold size. lia. Qed.

Lemma size_values m : List.length (values m) = List.length m.
Proof. unfold values. apply List.length_map. Qed.

Lemma size_empty_iff m : size m = 0 ↔ m = empty.
Proof.
  unfold size, empty. destruct m; simpl; split; intros H;
    try reflexivity; try discriminate; lia.
Qed.

End Facts.
End JSMapFacts.

(** ** The admission filter *)
Section AdmissionFilter.
Variable p : Props.
Variable file : File.

Lemma exceedsMaxSize_spec : exceedsMaxSize p file = true ↔ tooLarge p file.
Proof.
  unfold exceedsMaxSize, tooLarge. split.
  - destruct (maxSize p) as [[n| |]|]; simpl; try discriminate.
    + intros H. apply andb_true_iff in H as [Hn Hgt].
      exists n. repeat split.
      * apply negb_true_iff, Z.eqb_neq in Hn. exact Hn.
      * now apply Z.ltb_lt.
  - intros (n & -> & Hn & Hlt). simpl.
    apply andb_true_iff. split.
    + now apply negb_true_iff, Z.eqb_neq.
    + now apply Z.ltb_lt.
Qed.

Lemma limitReached_spec (s : State) :
  limitReached p (currentCount s) = true ↔ atLimit p s.
Proof.
  unfold limitReached, atLimit. split.
  - destruct (maxFiles p) as [[n| |]|]; simpl; try discriminate.
    intros H. apply andb_true_iff in H as [Hn Hge].
    exists n. repeat split.
    + apply negb_true_iff, Z.eqb_neq in Hn. exact Hn.
    + now apply Z.leb_le.
  - intros (n & -> & Hn & Hle). simpl.
    apply andb_true_iff. split.
    + now apply negb_true_iff, Z.eqb_neq.
    + now apply Z.leb_le.
Qed.

Lemma sameNameAndSize_spec (meta : Meta) :
  sameNameAndSize file meta = true ↔
  meta_originalName meta = Some (file_name file) ∧
  meta_size meta = Some (file_size file).
Proof.
  unfold sameNameAndSize.
  destruct (meta_originalName meta) as [n|], (meta_size meta) as [z|];
    try (split; [discriminate | intros [? ?]; discriminate]).
  rewrite andb_true_iff, String.eqb_eq, Z.eqb_eq.
  split; [intros [-> ->]; auto | intros [[= ->] [= ->]]; auto].
Qed.

Lemma isDuplicate_spec (s : State) :
  isDuplicate file (fileMetadataRef s) = true ↔ duplicate file s.
Proof.
  unfold isDuplicate, duplicate. rewrite List.existsb_exists.
  split; intros (meta & Hin & H); exists meta.
  - apply sameNameAndSize_spec in H. tauto.
  - split; [exact Hin | now apply sameNameAndSize_spec].
Qed.

(** The filter only reads the state. *)
Lemma fileFilter_state (s : State) : state_after (fileFilter p file) s = s.
Proof.
  unfold state_after, fileFilter, bind, get_state, perform, ret. simpl.
  destruct (exceedsMaxSize p file); [reflexivity|].
  destruct (limitReached p (currentCount s)); [reflexivity|].
  destruct (isDuplicate file (fileMetadataRef s)); reflexivity.
Qed.

Lemma fileFilter_rules (s : State) :
  admissionRules p file s (result_of (fileFilter p file) s)
    (effects_of (fileFilter p file) s).
Proof.
  pose proof exceedsMaxSize_spec as Hsize.
  pose proof (limitReached_spec s) as Hcount.
  pose proof (isDuplicate_spec s) as Hdup.
  unfold admissionRules, result_of, effects_of, fileFilter, bind, get_state,
    perform, ret. simpl.
  destruct (exceedsMaxSize p file).
  { assert (tooLarge p file) by now apply Hsize.
    split; [auto|]. split; [tauto|]. split; tauto. }
  assert (¬ tooLarge p file) by (intros H; apply Hsize in H; discriminate).
  destruct (limitReached p (currentCount s)).
  { assert (atLimit p s) by now apply Hcount.
    split; [tauto|]. split; [auto|]. split; tauto. }
  assert (¬ atLimit p s) by (intros H'; apply Hcount in H'; discriminate).
  destruct (isDuplicate file (fileMetadataRef s)).
  { assert (duplicate file s) by now apply Hdup.
    split; [tauto|]. split; [tauto|]. split; [auto | tauto]. }
  assert (¬ duplicate file s) by (intros H'; apply Hdup in H'; discriminate).
  split; [tauto|]. split; [tauto|]. split; [tauto | auto].
Qed.

(** A rejection is one error notification and nothing else; an acceptance
    performs no effect. *)
Lemma fileFilter_effects (s : State) :
  if result_of (fileFilter p file) s
  then effects_of (fileFilter p file) s = []
  else ∃ m, effects_of (fileFilter p file) s = [ToastError m].
Proof.
  unfold result_of, effects_of, fileFilter, bind, get_state, perform, ret.
  simpl.
  destruct (exceedsMaxSize p file); [simpl; eauto|].
  destruct (limitReached p (currentCount s)); [simpl; eauto|].
  destruct (isDuplicate file (fileMetadataRef s)); simpl; eauto.
Qed.

End AdmissionFilter.

(** C5. The admission filter applies its rules in the order size limit,
    count limit, duplicate (same name and same byte size), the first rule
    that matches deciding, and accepts otherwise; every rejection emits
    exactly one notification and nothing else, acceptance emits nothing,
    and in both cases the tracker maps, the progress map and the in-flight
    counter are left as they were. *)
Theorem C5_admission_filter (p : Props) (file : File) (s : State) :
  admissionRules p file s (result_of (fileFilter p file) s)
    (effects_of (fileFilter p file) s) ∧
  state_after (fileFilter p file) s = s ∧
  (result_of (fileFilter p file) s = false →
     List.length (effects_of (fileFilter p file) s) = 1%nat ∧
     List.forallb is_toast (effects_of (fileFilter p file) s) = true) ∧
  (result_of (fileFilter p file) s = true →
     effects_of (fileFilter p file) s = []).
Proof.
  split; [apply fileFilter_rules|].
  split; [apply fileFilter_state|].
  pose proof (fileFilter_effects p file s) as H.
  destruct (result_of (fileFilter p file) s).
  - split; [discriminate | intros _; exact H].
  - destruct H as [m ->]. split; [intros _; split; reflexivity | discriminate].
Qed.

(** The oversized-file scenario: with a maximum of 1,000,000 bytes a file
    of 2,000,000 bytes is rejected with one notification and an
    unchanged state. *)
Lemma C5_admission_filter_witness :
  result_of (fileFilter Sample.sizeLimited Sample.bigFile)
    (initialState (VArr [])) = false ∧
  state_after (fileFilter Sample.sizeLimited Sample.bigFile)
    (initialState (VArr [])) = initialState (VArr []) ∧
  List.length (effects_of (fileFilter Sample.sizeLimited Sample.bigFile)
                 (initialState (VArr []))) = 1%nat ∧
  List.forallb is_toast
    (effects_of (fileFilter Sample.sizeLimited Sample.bigFile)
       (initialState (VArr []))) = true.
Proof.
  assert (Hr : result_of (fileFilter Sample.sizeLimited Sample.bigFile)
                 (initialState (VArr [])) = false) by reflexivity.
  destruct (C5_admission_filter Sample.sizeLimited Sample.bigFile
              (initialState (VArr []))) as (_ & Hs & Hrej & _).
  split; [exact Hr|]. split; [exact Hs|]. exact (Hrej Hr).
Defined.

(** ** The count limit *)

Lemma fileFilter_at_limit (p : Props) (file : File) (s : State) :
  atLimit p s → result_of (fileFilter p file) s = false.
Proof.
  intros Hlim.
  destruct (fileFilter_rules p file s) as (H1 & H2 & _).
  destruct (exceedsMaxSize p file) eqn:Hsz.
  - apply exceedsMaxSize_spec in Hsz. now destruct (H1 Hsz).
  - assert (Hn : ¬ tooLarge p file).
    { intros H. apply exceedsMaxSize_spec in H. congruence. }
    now destruct (H2 Hn Hlim).
Qed.

(** The count rule, both ways: at or above a configured limit every
    candidate is rejected, and an accepted file was checked at a count
    strictly below the limit. *)
Lemma fileFilter_count_rule (p : Props) (file : File) (s : State) :
  (atLimit p s → result_of (fileFilter p file) s = false) ∧
  (result_of (fileFilter p file) s = true →
   ∀ n, maxFiles p = Some (JNum n) → n ≠ 0 → currentCount s < n).
Proof.
  split; [apply fileFilter_at_limit|].
  intros Hacc n Hmax Hn.
  destruct (Z.lt_ge_cases (currentCount s) n) as [Hlt|Hge]; [exact Hlt|].
  assert (Hlim : atLimit p s) by (exists n; auto).
  rewrite (fileFilter_at_limit p file s Hlim) in Hacc. discriminate.
Qed.

(** C3, evaluated on one selection of three files with a maximum of two.
    The filter is asked about the three files before any of them starts,
    reads the same count each time and admits all three without a
    notification.  The engine uploads them with at most two in flight,
    and the field ends with three tracked items and three committed
    references: more than the maximum. *)
Theorem C3_one_selection_exceeds_limit :
  maxFiles (Sample.multiple (Some (JNum 2))) = Some (JNum 2) ∧
  accepted (run (Sample.multiple (Some (JNum 2))) Scenarios.selectionOfThree
              (initialSystem (VArr [])))
  = [Sample.fileA; Sample.fileB; Sample.fileC] ∧
  List.filter is_toast
    (log (run (Sample.multiple (Some (JNum 2))) Scenarios.selectionOfThree
            (initialSystem (VArr []))))
  = [] ∧
  countersAlong (Sample.multiple (Some (JNum 2))) Scenarios.selectionOfThree
    (initialSystem (VArr []))
  = [0; 0; 0; 1; 2; 2; 1; 1; 2; 2; 1; 1; 0; 0] ∧
  JSMap.keys
    (fileMetadata
       (component (run (Sample.multiple (Some (JNum 2)))
                     Scenarios.selectionOfThree (initialSystem (VArr [])))))
  = [Sample.idA; Sample.idB; Sample.idC] ∧
  formValue (run (Sample.multiple (Some (JNum 2))) Scenarios.selectionOfThree
               (initialSystem (VArr [])))
  = VArr ["r1"; "r2"; "r3"] ∧
  ¬ withinLimit (Sample.multiple (Some (JNum 2)))
      (component (run (Sample.multiple (Some (JNum 2)))
                    Scenarios.selectionOfThree (initialSystem (VArr [])))).
Proof.
  split; [reflexivity|].
  split; [vm_compute; reflexivity|].
  split; [vm_compute; reflexivity|].
  split; [vm_compute; reflexivity|].
  split; [vm_compute; reflexivity|].
  split; [vm_compute; reflexivity|].
  unfold withinLimit. simpl maxFiles. intros H. vm_compute in H.
  now apply H.
Qed.

(** ** [Field.maxFiles] *)

(** With the properties of a single-mode field the filter rejects every
    candidate once the count it reads is at least one. *)
Lemma single_mode_rejects_when_occupied (c : Field.FieldConfig)
  (file : File) (s : State) :
  Field.isMultiple c = false →
  1 <= currentCount s →
  result_of (fileFilter (Field.fileFieldProps c) file) s = false.
Proof.
  intros Hsingle Hcount.
  apply fileFilter_at_limit.
  exists 1. unfold Field.fileFieldProps, Field.maxFiles. simpl.
  rewrite Hsingle. split; [reflexivity|]. split; [lia | exact Hcount].
Qed.

(** C10. The [maxFiles] accessor of [Field] is 1 whenever the field is not
    in multiple mode, whatever [maxFiles] the configuration carries, and
    positive infinity in multiple mode when none is configured.
    Evaluated on two files dropped on a single-mode field in one
    selection, the limit of 1 does not keep the second file out: the
    filter admits both without a notification, and after the engine has
    uploaded them one after the other both are tracked. *)
Theorem C10_field_maxFiles (c : Field.FieldConfig) :
  (Field.isMultiple c = false → Field.maxFiles c = JNum 1) ∧
  (Field.isMultiple c = true → Field.cfg_maxFiles c = None →
   Field.maxFiles c = JInf) ∧
  (maxFiles (Field.fileFieldProps Scenarios.singleField) = Some (JNum 1) ∧
   accepted (run (Field.fileFieldProps Scenarios.singleField)
               Scenarios.twoDropped (initialSystem VNull))
   = [Sample.fileA; Sample.fileB] ∧
   List.filter is_toast
     (log (run (Field.fileFieldProps Scenarios.singleField)
             Scenarios.twoDropped (initialSystem VNull)))
   = [] ∧
   countersAlong (Field.fileFieldProps Scenarios.singleField)
     Scenarios.twoDropped (initialSystem VNull)
   = [0; 0; 1; 1; 0; 0; 1; 1; 0; 0] ∧
   JSMap.keys
     (fileMetadata
        (component (run (Field.fileFieldProps Scenarios.singleField)
                      Scenarios.twoDropped (initialSystem VNull))))
   = [Sample.idA; Sample.idB] ∧
   ¬ withinLimit (Field.fileFieldProps Scenarios.singleField)
       (component (run (Field.fileFieldProps Scenarios.singleField)
                     Scenarios.twoDropped (initialSystem VNull)))).
Proof.
  unfold Field.maxFiles.
  split; [intros ->; reflexivity|].
  split; [intros -> ->; reflexivity|].
  split; [reflexivity|].
  split; [vm_compute; reflexivity|].
  split; [vm_compute; reflexivity|].
  split; [vm_compute; reflexivity|].
  split; [vm_compute; reflexivity|].
  unfold withinLimit. simpl maxFiles. intros H. vm_compute in H.
  now apply H.
Qed.

Lemma C10_field_maxFiles_witness :
  Field.maxFiles (Field.mkConfig None (Some (JNum 5)) None) = JNum 1 ∧
  Field.maxFiles (Field.mkConfig (Some true) None None) = JInf.
Proof.
  split.
  - apply (C10_field_maxFiles (Field.mkConfig None (Some (JNum 5)) None)).
    reflexivity.
  - apply (C10_field_maxFiles (Field.mkConfig (Some true) None None));
      reflexivity.
Defined.

(** ** What each handler does to the state *)

Ltac run_handler :=
  unfold state_after, effects_of, result_of, bind, update, perform, ret,
    get_state; simpl.

Lemma Qltb_lt (x y : Q) : Qltb x y = true ↔ (x < y)%Q.
Proof.
  unfold Qltb. rewrite negb_true_iff. split.
  - intros H. apply Qnot_le_lt. intros Hle.
    apply Qle_bool_iff in Hle. congruence.
  - intros H. destruct (Qle_bool y x) eqn:E; [|reflexivity].
    apply Qle_bool_iff in E. now apply Qlt_not_le in H.
Qed.

Lemma Qltb_ge (x y : Q) : Qltb x y = false ↔ (y <= x)%Q.
Proof.
  unfold Qltb. rewrite negb_false_iff. apply Qle_bool_iff.
Qed.

Lemma onItemStart_state (item : BatchItem) (s : State) :
  state_after (onItemStart item) s =
  setFileMetadata (JSMap.set (item_id item) (startMeta item))
    (setUploadingCount (uploadingCountRef s + 1) s).
Proof. reflexivity. Qed.

Lemma onItemProgress_state (item : BatchItem) (s : State) :
  state_after (onItemProgress item) s =
  setUploadProgress
    (if Qltb (item_completed item) (100 # 1)
     then <[item_id item := item_completed item]>
     else base.delete (item_id item)) s.
Proof.
  unfold onItemProgress.
  destruct (Qltb (item_completed item) (100 # 1)); reflexivity.
Qed.

Lemma onItemError_state (item : BatchItem) (s : State) :
  state_after (onItemError item) s =
  decrementUploading
    (setUploadProgress (base.delete (item_id item))
       (setFileMetadata (JSMap.delete (item_id item)) s)).
Proof. reflexivity. Qed.

Lemma handleCancel_state (id : string) (s : State) :
  state_after (handleCancel id) s =
  decrementUploading (setUploadProgress (base.delete id) s).
Proof. reflexivity. Qed.

Lemma handleRemove_state (p : Props) (id : string) (s : State) :
  state_after (handleRemove p id) s = setFileMetadata (JSMap.delete id) s.
Proof. reflexivity. Qed.

Lemma handleFormReset_state (p : Props) (s : State) :
  state_after (handleFormReset p true) s =
  setUploadingCount 0
    (setUploadProgress (λ _, ∅) (setFileMetadata (λ _, JSMap.empty) s)).
Proof. reflexivity. Qed.

Lemma cleanupAllFiles_state (b : bool) (s : State) :
  state_after (cleanupAllFiles b) s = s.
Proof.
  unfold cleanupAllFiles. run_handler.
  destruct (_ =? _)%nat; [reflexivity|]. destruct b; reflexivity.
Qed.

Lemma onItemFinish_progress (p : Props) (item : BatchItem) (s : State) :
  uploadProgress (state_after (onItemFinish p item) s) = uploadProgress s.
Proof.
  unfold onItemFinish. run_handler.
  destruct (is_finished (item_state item)); [|reflexivity].
  destruct (usableUrl item); [|reflexivity].
  run_handler. destruct (opt_bool_truthy (isMultiple p)); reflexivity.
Qed.

Lemma onClick_progress (p : Props) (id : string) (s : State) :
  uploadProgress (state_after (onClick p id) s) = uploadProgress s ∨
  uploadProgress (state_after (onClick p id) s)
  = base.delete id (uploadProgress s).
Proof.
  unfold onClick. run_handler.
  destruct (JSMap.get id (view_fileMetadata (view s))); [|now left].
  destruct (view_uploadProgress (view s) !! id); [now right | now left].
Qed.

(** ** The progress map *)

Lemma progressBelow100_initial (v : jsvalue) :
  progressBelow100 (initialState v).
Proof. apply map_Forall_empty. Qed.

Lemma progressBelow100_step (p : Props) (ev : Event) (sys : System) :
  progressBelow100 (component sys) →
  progressBelow100 (component (step p ev sys)).
Proof.
  unfold progressBelow100. intros Hinv.
  destruct ev as [file|item|item|item|item|id|contains|b|]; simpl.
  - destruct (result_of (fileFilter p file) (component sys)); simpl;
      now rewrite fileFilter_state.
  - exact Hinv.
  - rewrite onItemProgress_state. simpl.
    destruct (Qltb (item_completed item) (100 # 1)) eqn:E.
    + apply map_Forall_insert_2; [now apply Qltb_lt | exact Hinv].
    + now apply map_Forall_delete.
  - now apply map_Forall_delete.
  - now rewrite onItemFinish_progress.
  - destruct (onClick_progress p id (component sys)) as [-> | ->];
      [exact Hinv | now apply map_Forall_delete].
  - destruct contains; [apply map_Forall_empty | exact Hinv].
  - now rewrite cleanupAllFiles_state.
  - exact Hinv.
Qed.

Lemma progressBelow100_run (p : Props) (evs : list Event) (sys : System) :
  progressBelow100 (component sys) →
  progressBelow100 (component (run p evs sys)).
Proof.
  revert sys. induction evs as [|ev evs IH]; intros sys Hinv; simpl.
  - exact Hinv.
  - apply IH. now apply progressBelow100_step.
Qed.

(** C9. The progress map never holds an entry of value 100: a progress
    event reporting a percentage strictly below 100 upserts the item's
    entry to that percentage, one reporting 100 or more deletes the entry,
    and in every state the component reaches all entries are strictly
    below 100. *)
Theorem C9_progress_never_100 (p : Props) (v : jsvalue) (evs : list Event)
  (item : BatchItem) (s : State) :
  ((item_completed item < 100 # 1)%Q →
   uploadProgress (state_after (onItemProgress item) s)
   = <[item_id item := item_completed item]> (uploadProgress s)) ∧
  ((100 # 1 <= item_completed item)%Q →
   uploadProgress (state_after (onItemProgress item) s)
   = base.delete (item_id item) (uploadProgress s) ∧
   uploadProgress (state_after (onItemProgress item) s) !! item_id item
   = None) ∧
  progressBelow100 (component (run p evs (initialSystem v))) ∧
  (∀ id percent,
     uploadProgress (component (run p evs (initialSystem v))) !! id
     = Some percent →
     (percent < 100 # 1)%Q ∧ ¬ (percent == 100 # 1)%Q).
Proof.
  assert (Hinv : progressBelow100 (component (run p evs (initialSystem v))))
    by apply progressBelow100_run, progressBelow100_initial.
  rewrite onItemProgress_state.
  split; [|split; [|split]].
  - intros Hlt. apply Qltb_lt in Hlt. now rewrite Hlt.
  - intros Hge. apply Qltb_ge in Hge. rewrite Hge. simpl.
    split; [reflexivity | apply lookup_delete_eq].
  - exact Hinv.
  - intros id percent Hlook.
    pose proof (map_Forall_lookup_1 _ _ _ _ Hinv Hlook) as Hlt.
    simpl in Hlt. split; [exact Hlt|].
    intros Heq. rewrite Heq in Hlt. now apply Qlt_irrefl in Hlt.
Qed.

Lemma C9_progress_never_100_witness :
  uploadProgress
    (state_after
       (onItemProgress (Sample.uploading Sample.idA Sample.fileA (40 # 1)))
       (initialState VNull))
  = <[Sample.idA := 40 # 1]> (uploadProgress (initialState VNull)) ∧
  uploadProgress
    (state_after
       (onItemProgress (Sample.uploading Sample.idA Sample.fileA (100 # 1)))
       (state_after
          (onItemProgress (Sample.uploading Sample.idA Sample.fileA (40 # 1)))
          (initialState VNull))) !! Sample.idA = None.
Proof.
  split.
  - apply (C9_progress_never_100 Sample.single VNull []
             (Sample.uploading Sample.idA Sample.fileA (40 # 1))
             (initialState VNull)).
    reflexivity.
  - apply (C9_progress_never_100 Sample.single VNull []
             (Sample.uploading Sample.idA Sample.fileA (100 # 1))).
    unfold Qle. simpl. lia.
Defined.

(** ** Form reset *)

(** C8. On a reset of the form that contains the field, the component
    clears the whole tracker map and the whole progress map, sets the
    in-flight counter to zero and hands the empty value to the
    value-changed callback: the empty list in multiple mode, null in
    single mode. *)
Theorem C8_form_reset (p : Props) (sys : System) :
  fileMetadata (state_after (handleFormReset p true) (component sys))
  = JSMap.empty ∧
  uploadProgress (state_after (handleFormReset p true) (component sys))
  = ∅ ∧
  uploadingCountRef (state_after (handleFormReset p true) (component sys))
  = 0 ∧
  effects_of (handleFormReset p true) (component sys)
  = [OnChange (if opt_bool_truthy (isMultiple p) then VArr [] else VNull)] ∧
  formValue (step p (EvFormReset true) sys)
  = (if opt_bool_truthy (isMultiple p) then VArr [] else VNull).
Proof.
  rewrite handleFormReset_state. repeat split.
Qed.

(** ** Finish events *)

Lemma emitted_app (es1 es2 : list Effect) :
  emitted (es1 ++ es2) = emitted es1 ++ emitted es2.
Proof.
  induction es1 as [|e es1 IH]; simpl; [reflexivity|].
  destruct e; simpl; now rewrite IH.
Qed.

(** A finish event with a usable reference: the value handed to the
    callback is built from the [value] the handler's closure holds. *)
Lemma onItemFinish_confirmed (p : Props) (item : BatchItem) (s : State)
  (url : string) :
  item_state item = StFinished →
  usableUrl item = Some url →
  state_after (onItemFinish p item) s
  = setFileMetadata (mergeFinished item) (decrementUploading s) ∧
  effects_of (onItemFinish p item) s
  = [OnChange (if opt_bool_truthy (isMultiple p)
               then VArr (array_or_empty (view_value (view s)) ++ [url])
               else VStr url)].
Proof.
  intros Hst Hurl. unfold onItemFinish. rewrite Hst, Hurl. run_handler.
  destruct (opt_bool_truthy (isMultiple p)); split; reflexivity.
Qed.

(** C6. When the response of a finish event carries no usable reference,
    the handler decrements the in-flight counter (not below zero) and does
    nothing else: the tracker is unchanged, nothing is handed to the
    value-changed callback, and the form's value stays as it was. *)
Theorem C6_finish_without_reference (p : Props) (item : BatchItem)
  (sys : System) :
  usableUrl item = None →
  state_after (onItemFinish p item) (component sys)
  = decrementUploading (component sys) ∧
  uploadingCountRef (state_after (onItemFinish p item) (component sys))
  = Z.max 0 (uploadingCountRef (component sys) - 1) ∧
  fileMetadata (state_after (onItemFinish p item) (component sys))
  = fileMetadata (component sys) ∧
  effects_of (onItemFinish p item) (component sys) = [] ∧
  formValue (step p (EvItemFinish item) sys) = formValue sys ∧
  emitted (log (step p (EvItemFinish item) sys)) = emitted (log sys).
Proof.
  intros Hurl.
  assert (Hst : state_after (onItemFinish p item) (component sys)
                = decrementUploading (component sys)).
  { unfold onItemFinish. rewrite Hurl. run_handler.
    destruct (is_finished (item_state item)); reflexivity. }
  assert (Hes : effects_of (onItemFinish p item) (component sys) = []).
  { unfold onItemFinish. rewrite Hurl. run_handler.
    destruct (is_finished (item_state item)); reflexivity. }
  rewrite Hst. simpl. rewrite Hes. simpl.
  repeat split. now rewrite List.app_nil_r.
Qed.

Lemma C6_finish_without_reference_witness :
  uploadingCountRef
    (state_after
       (onItemFinish Sample.single
          (Sample.finishedWithoutUrl Sample.idA Sample.fileA))
       (component (run Sample.single Sample.inProgress (initialSystem VNull))))
  = Z.max 0
      (uploadingCountRef
         (component (run Sample.single Sample.inProgress
                       (initialSystem VNull))) - 1) ∧
  effects_of
    (onItemFinish Sample.single
       (Sample.finishedWithoutUrl Sample.idA Sample.fileA))
    (component (run Sample.single Sample.inProgress (initialSystem VNull)))
  = [].
Proof.
  destruct (C6_finish_without_reference Sample.single
              (Sample.finishedWithoutUrl Sample.idA Sample.fileA)
              (run Sample.single Sample.inProgress (initialSystem VNull)))
    as (_ & Hc & _ & He & _).
  - reflexivity.
  - split; [exact Hc | exact He].
Defined.

(** With a render between the two finish events the second handler sees
    the first reference. *)
Lemma finish_with_render_keeps_both :
  formValue (run (Sample.multiple None) Sample.finishWithRender
               (initialSystem (VArr [])))
  = VArr ["r2"; "r1"].
Proof. vm_compute. reflexivity. Qed.

(** C1, evaluated on the two-uploads scenario.  B finishes with reference
    r2 and A with r1 before the component is rendered again: the second
    handler appends to the [value] of its closure, still the empty list,
    and the form ends with r1 alone. *)
Theorem C1_back_to_back_finishes_drop_first :
  emitted (log (run (Sample.multiple None) Sample.finishBackToBack
                  (initialSystem (VArr []))))
  = [VArr ["r2"]; VArr ["r1"]] ∧
  formValue (run (Sample.multiple None) Sample.finishBackToBack
               (initialSystem (VArr [])))
  = VArr ["r1"].
Proof. split; vm_compute; reflexivity. Qed.

(** ** Error and cancel *)

(** An error event purges the item from both maps and decrements the
    counter, not below zero. *)
Lemma onItemError_purges (item : BatchItem) (s : State) :
  purged (item_id item) (state_after (onItemError item) s) ∧
  uploadingCountRef (state_after (onItemError item) s)
  = Z.max 0 (uploadingCountRef s - 1).
Proof.
  rewrite onItemError_state. unfold purged. simpl.
  split; [split|reflexivity].
  - apply JSMapFacts.get_delete_eq.
  - apply lookup_delete_eq.
Qed.

(** A cancel removes the progress entry and decrements the counter, and
    leaves the tracker as it was. *)
Lemma handleCancel_tracker (id : string) (s : State) :
  fileMetadata (state_after (handleCancel id) s) = fileMetadata s ∧
  uploadProgress (state_after (handleCancel id) s) !! id = None ∧
  uploadingCountRef (state_after (handleCancel id) s)
  = Z.max 0 (uploadingCountRef s - 1).
Proof.
  rewrite handleCancel_state. simpl.
  split; [reflexivity|]. split; [apply lookup_delete_eq | reflexivity].
Qed.

(** C2, evaluated on an upload in progress.  After the user cancels item
    A, its progress entry is gone and the counter is back to zero, but
    the tracker still holds A's entry; after an error event for A in the
    same state nothing of A remains. *)
Theorem C2_cancel_leaves_tracker_entry :
  log (run Sample.single Sample.cancelInProgress (initialSystem VNull))
  = [AbortItem Sample.idA; RemovePreview Sample.idA;
     ToastInfo (MsgText "Upload cancelled")] ∧
  uploadProgress
    (component (run Sample.single Sample.cancelInProgress
                  (initialSystem VNull))) !! Sample.idA = None ∧
  uploadingCountRef
    (component (run Sample.single Sample.cancelInProgress
                  (initialSystem VNull))) = 0 ∧
  JSMap.get Sample.idA
    (fileMetadata
       (component (run Sample.single Sample.cancelInProgress
                     (initialSystem VNull))))
  = Some (startMeta (Sample.started Sample.idA Sample.fileA)) ∧
  ¬ purged Sample.idA
      (component (run Sample.single Sample.cancelInProgress
                    (initialSystem VNull))) ∧
  purged Sample.idA
    (component (run Sample.single Sample.failInProgress
                  (initialSystem VNull))).
Proof.
  split; [vm_compute; reflexivity|].
  split; [vm_compute; reflexivity|].
  split; [vm_compute; reflexivity|].
  split; [vm_compute; reflexivity|].
  split.
  - intros [H _]. vm_compute in H. discriminate.
  - split; vm_compute; reflexivity.
Qed.

(** The entry a cancel leaves behind keeps counting: in single mode the
    filter then rejects every further file. *)
Lemma cancelled_item_blocks_admission (file : File) :
  result_of (fileFilter Sample.single file)
    (component (run Sample.single (Sample.cancelInProgress ++ [EvRender])
                  (initialSystem VNull)))
  = false.
Proof.
  apply fileFilter_at_limit. exists 1.
  split; [reflexivity|]. split; [lia|]. vm_compute. discriminate.
Qed.

(** ** The in-flight counter never goes below zero *)

Lemma onItemFinish_count (p : Props) (item : BatchItem) (s : State) :
  uploadingCountRef (state_after (onItemFinish p item) s)
  = Z.max 0 (uploadingCountRef s - 1).
Proof.
  unfold onItemFinish. run_handler.
  destruct (is_finished (item_state item)); [|reflexivity].
  destruct (usableUrl item); [|reflexivity].
  run_handler. destruct (opt_bool_truthy (isMultiple p)); reflexivity.
Qed.

Lemma onClick_count (p : Props) (id : string) (s : State) :
  uploadingCountRef (state_after (onClick p id) s) = uploadingCountRef s ∨
  uploadingCountRef (state_after (onClick p id) s)
  = Z.max 0 (uploadingCountRef s - 1).
Proof.
  unfold onClick. run_handler.
  destruct (JSMap.get id (view_fileMetadata (view s))); [|now left].
  destruct (view_uploadProgress (view s) !! id); [now right | now left].
Qed.

Lemma uploadingCount_nonneg_step (p : Props) (ev : Event) (sys : System) :
  0 <= uploadingCountRef (component sys) →
  0 <= uploadingCountRef (component (step p ev sys)).
Proof.
  intros Hinv.
  destruct ev as [file|item|item|item|item|id|contains|b|]; simpl.
  - destruct (result_of (fileFilter p file) (component sys)); simpl;
      now rewrite fileFilter_state.
  - lia.
  - now rewrite onItemProgress_state.
  - lia.
  - rewrite onItemFinish_count. lia.
  - destruct (onClick_count p id (component sys)) as [-> | ->]; lia.
  - destruct contains; simpl; [reflexivity | exact Hinv].
  - now rewrite cleanupAllFiles_state.
  - exact Hinv.
Qed.

Lemma uploadingCount_nonneg_run (p : Props) (evs : list Event) (v : jsvalue) :
  0 <= uploadingCountRef (component (run p evs (initialSystem v))).
Proof.
  assert (H : ∀ sys, 0 <= uploadingCountRef (component sys) →
                     0 <= uploadingCountRef (component (run p evs sys))).
  { induction evs as [|ev evs IH]; intros sys Hinv; simpl; [exact Hinv|].
    apply IH. now apply uploadingCount_nonneg_step. }
  apply H. reflexivity.
Qed.

(** ** Cleanup of temporary files *)

(** After a confirmed finish the entry's [filename] is the storage name
    the server answered with. *)
Lemma mergeFinished_filename (item : BatchItem) (m : JSMap.t Meta)
  (old : Meta) :
  JSMap.get (item_id item) m = Some old →
  meta_filename <$> JSMap.get (item_id item) (mergeFinished item m)
  = Some (responseOf item ≫= rd_filename).
Proof.
  intros Hget. unfold mergeFinished. rewrite Hget.
  now rewrite JSMapFacts.get_set_eq.
Qed.

(** Until the server confirms an upload, the entry's [filename] is the
    name of the client's file. *)
Lemma startMeta_filename (item : BatchItem) :
  meta_filename (startMeta item) = file_name <$> item_file item ∧
  confirmed (startMeta item) = false.
Proof. split; reflexivity. Qed.

(** C4, as the code has it.  On page departure or teardown the cleanup
    agent takes the [filename] of every entry of the tracker, finished or
    not (the server-assigned storage name once the upload is confirmed,
    the client's file name before), and issues a single batch cleanup
    request carrying exactly that list: by beacon when the beacon is
    accepted, by a keepalive request otherwise; with an empty tracker it
    issues nothing.  The state is not changed. *)
Theorem C4_cleanup_all_files (beaconAccepted : bool) (s : State) :
  state_after (cleanupAllFiles beaconAccepted) s = s ∧
  (fileMetadataRef s = JSMap.empty →
   effects_of (cleanupAllFiles beaconAccepted) s = []) ∧
  (fileMetadataRef s ≠ JSMap.empty →
   List.filter is_request (effects_of (cleanupAllFiles beaconAccepted) s)
   = [CleanupRequest (if beaconAccepted then ViaBeacon else ViaKeepaliveFetch)
        cleanupUrl
        (List.map meta_filename (JSMap.values (fileMetadataRef s)))] ∧
   effects_of (cleanupAllFiles beaconAccepted) s
   = (if beaconAccepted then [] else
        [BeaconRefused cleanupUrl
           (List.map meta_filename (JSMap.values (fileMetadataRef s)))])
     ++ [CleanupRequest
           (if beaconAccepted then ViaBeacon else ViaKeepaliveFetch)
           cleanupUrl
           (List.map meta_filename (JSMap.values (fileMetadataRef s)))]) ∧
  List.length (List.map meta_filename (JSMap.values (fileMetadataRef s)))
  = List.length (fileMetadataRef s) ∧
  (∀ id meta, JSMap.get id (fileMetadataRef s) = Some meta →
              In (meta_filename meta)
                (List.map meta_filename (JSMap.values (fileMetadataRef s)))) ∧
  (∀ v, fileMetadataRef (render v s) = fileMetadata s).
Proof.
  split; [apply cleanupAllFiles_state|].
  split.
  { intros Hempty. unfold cleanupAllFiles. run_handler.
    now rewrite Hempty. }
  split.
  { intros Hne. unfold cleanupAllFiles. run_handler.
    destruct (fileMetadataRef s) as [|e r]; [contradiction|]. simpl.
    destruct beaconAccepted; split; reflexivity. }
  split.
  { now rewrite List.length_map, JSMapFacts.size_values. }
  split.
  { intros id meta Hget. apply List.in_map.
    now apply JSMapFacts.get_In_values with (k := id). }
  reflexivity.
Qed.

Lemma C4_cleanup_all_files_witness :
  List.filter is_request
    (effects_of (cleanupAllFiles false)
       (component (run (Sample.multiple None) Sample.oneFinishedOneUploading
                     (initialSystem (VArr [])))))
  = [CleanupRequest ViaKeepaliveFetch cleanupUrl
       [Some "stored-1.png"; Some "b.png"]] ∧
  effects_of (cleanupAllFiles true) (initialState (VArr [])) = [].
Proof.
  split.
  - apply (C4_cleanup_all_files false
             (component (run (Sample.multiple None)
                           Sample.oneFinishedOneUploading
                           (initialSystem (VArr []))))).
    vm_compute. discriminate.
  - apply (C4_cleanup_all_files true (initialState (VArr []))).
    reflexivity.
Defined.

(** While A is confirmed and B is still uploading, the cleanup request
    carries B's client file name: the server has assigned B no storage
    name. *)
Lemma C4_cleanup_sends_client_name :
  List.filter is_request
    (effects_of (cleanupAllFiles true)
       (component (run (Sample.multiple None) Sample.oneFinishedOneUploading
                     (initialSystem (VArr [])))))
  = [CleanupRequest ViaBeacon cleanupUrl
       [Some "stored-1.png"; Some (file_name Sample.fileB)]] ∧
  List.map remoteName
    (JSMap.values
       (fileMetadataRef
          (component (run (Sample.multiple None)
                        Sample.oneFinishedOneUploading
                        (initialSystem (VArr []))))))
  = [Some "stored-1.png"; None] ∧
  JSMap.get Sample.idB
    (fileMetadataRef
       (component (run (Sample.multiple None) Sample.oneFinishedOneUploading
                     (initialSystem (VArr [])))))
  = Some (startMeta (Sample.started Sample.idB Sample.fileB)).
Proof. repeat split; vm_compute; reflexivity. Qed.

(** ** Removing a finished item *)

Section RemoveReference.
Variable u : string.




Lemma filter_absent (l : list string) :
  ¬ In u l → List.filter (keepOthers u) l = l.
Proof.
  induction l as [|x l IH]; simpl; [reflexivity|].
  intros Hnot. unfold keepOthers at 1.
  destruct (String.eqb_spec x u) as [->|Hne]; simpl.
  - exfalso. apply Hnot. now left.
  - f_equal. apply IH. intros Hin. apply Hnot. now right.
Qed.

(** Filtering out a reference that occurs once removes that one element
    and keeps the others in their order. *)
Lemma filter_single (l : list string) :
  List.count_occ string_dec l u = 1%nat →
  ∃ l1 l2, l = l1 ++ u :: l2 ∧ List.filter (keepOthers u) l = l1 ++ l2.
Proof.
  induction l as [|x l IH]; simpl; [discriminate|].
  destruct (string_dec x u) as [->|Hne]; intros Hocc.
  - exists [], l. simpl.
    assert (Hnot : ¬ In u l).
    { apply (List.count_occ_not_In string_dec). lia. }
    unfold keepOthers at 1. rewrite String.eqb_refl. simpl.
    rewrite (filter_absent l Hnot). auto.
  - destruct (IH Hocc) as (l1 & l2 & -> & Hf).
    exists (x :: l1), l2. simpl.
    unfold keepOthers at 1.
    destruct (String.eqb_spec x u) as [->|_]; [contradiction|]. simpl.
    now rewrite Hf.
Qed.

End RemoveReference.







(** * Further properties of the upload component *)

(** ** More on the map operations *)
Module JSMapMore.
Import JSMap.
Section Facts.
Context {V : Type}.
Implicit Types (m : JSMap.t V) (k : string) (v : V).

Lemma delete_fresh m k : get k m = None → delete k m = m.
Proof.
  induction m as [|[k' v'] r IH]; simpl; [reflexivity|].
  destruct (String.eqb k' k); [discriminate|].
  intros H. now rewrite IH.
Qed.

Lemma delete_set_fresh m k v : get k m = None → delete k (set k v m) = m.
Proof.
  induction m as [|[k' v'] r IH]; simpl.
  - now rewrite String.eqb_refl.
  - destruct (String.eqb k' k) eqn:E; [discriminate|].
    intros H. simpl. rewrite E. now rewrite IH.
Qed.

Lemma get_Some_In_keys m k v : get k m = Some v → In k (keys m).
Proof.
  induction m as [|[k' v'] r IH]; simpl; [discriminate|].
  destruct (String.eqb_spec k' k) as [->|_]; [now left|].
  intros H. right. now apply IH.
Qed.

Lemma In_values_get m v : In v (values m) → ∃ k, In (k, v) m.
Proof.
  unfold values. rewrite List.in_map_iff.
  intros ([k v'] & <- & Hin). now exists k.
Qed.

End Facts.
End JSMapMore.

(** ** Traces *)

Lemma run_cons (p : Props) (ev : Event) (evs : list Event) (sys : System) :
  run p (ev :: evs) sys = run p evs (step p ev sys).
Proof. reflexivity. Qed.

Lemma run_app (p : Props) (evs1 evs2 : list Event) (sys : System) :
  run p (evs1 ++ evs2) sys = run p evs2 (run p evs1 sys).
Proof. unfold run. apply List.fold_left_app. Qed.

Lemma run_nil (p : Props) (sys : System) : run p [] sys = sys.
Proof. reflexivity. Qed.

(** ** Start, progress, error *)

Lemma step_start_state (p : Props) (item : BatchItem) (sys : System) :
  component (step p (EvItemStart item) sys)
  = setFileMetadata (JSMap.set (item_id item) (startMeta item))
      (setUploadingCount (uploadingCountRef (component sys) + 1)
         (component sys)).
Proof. reflexivity. Qed.

(** Progress events of one item leave everything but that item's progress
    entry as it was. *)
Lemma run_progress_events (p : Props) (id : string) (items : list BatchItem)
  (sys : System) :
  Forall (λ item, item_id item = id) items →
  fileMetadata (component (run p (List.map EvItemProgress items) sys))
  = fileMetadata (component sys) ∧
  uploadingCountRef (component (run p (List.map EvItemProgress items) sys))
  = uploadingCountRef (component sys) ∧
  fileMetadataRef (component (run p (List.map EvItemProgress items) sys))
  = fileMetadataRef (component sys) ∧
  view (component (run p (List.map EvItemProgress items) sys))
  = view (component sys) ∧
  formValue (run p (List.map EvItemProgress items) sys) = formValue sys ∧
  accepted (run p (List.map EvItemProgress items) sys) = accepted sys ∧
  log (run p (List.map EvItemProgress items) sys) = log sys ∧
  base.delete id
    (uploadProgress (component (run p (List.map EvItemProgress items) sys)))
  = base.delete id (uploadProgress (component sys)).
Proof.
  intros Hids. revert sys.
  induction Hids as [|item items Hid _ IH]; intros sys.
  - repeat split.
  - cbn [List.map]. rewrite run_cons.
    destruct (IH (step p (EvItemProgress item) sys))
      as (H1 & H2 & H3 & H4 & H5 & H6 & H7 & H8).
    rewrite H1, H2, H3, H4, H5, H6, H7, H8. simpl.
    rewrite onItemProgress_state. simpl.
    assert (Hlog : effects_of (onItemProgress item) (component sys) = []).
    { unfold onItemProgress.
      destruct (Qltb (item_completed item) (100 # 1)); reflexivity. }
    rewrite Hlog. simpl. rewrite List.app_nil_r.
    repeat split.
    rewrite Hid.
    destruct (Qltb (item_completed item) (100 # 1)).
    + apply delete_insert_eq.
    + apply delete_delete_eq.
Qed.

(** X1. An upload that fails leaves no trace in the component: for an id
    that is not yet tracked and has no progress entry, and a counter that
    is not negative, the start event, any number of progress events for
    that item and the error event together bring the component back to
    the state it was in; the form's value is untouched and the only
    effect is the error notification. *)
Theorem X1_failed_upload_restores_state (p : Props) (item failed : BatchItem)
  (progress : list BatchItem) (sys : System) :
  item_id failed = item_id item →
  Forall (λ i, item_id i = item_id item) progress →
  JSMap.get (item_id item) (fileMetadata (component sys)) = None →
  uploadProgress (component sys) !! item_id item = None →
  0 <= uploadingCountRef (component sys) →
  component
    (run p (EvItemStart item :: List.map EvItemProgress progress
              ++ [EvItemError failed]) sys)
  = component sys ∧
  formValue
    (run p (EvItemStart item :: List.map EvItemProgress progress
              ++ [EvItemError failed]) sys)
  = formValue sys ∧
  log
    (run p (EvItemStart item :: List.map EvItemProgress progress
              ++ [EvItemError failed]) sys)
  = log sys ++ [ToastError (MsgText (errorText failed))].
Proof.
  intros Hfailed Hprogress Hfresh Hnoprog Hcount.
  rewrite run_cons, run_app, run_cons, run_nil.
  destruct (run_progress_events p (item_id item) progress
              (step p (EvItemStart item) sys) Hprogress)
    as (H1 & H2 & H3 & H4 & H5 & H6 & H7 & H8).
  set (sys1 := run p (List.map EvItemProgress progress)
                 (step p (EvItemStart item) sys)) in *.
  unfold step, dispatch at 1 2 3. cbn [component formValue log].
  split; [|split].
  - rewrite onItemError_state. unfold decrementUploading, setUploadingCount,
      setUploadProgress, setFileMetadata. simpl.
    rewrite H1, H2, H3, H4, Hfailed, H8. simpl.
    rewrite (JSMapMore.delete_set_fresh _ _ _ Hfresh).
    rewrite (delete_id _ _ Hnoprog).
    replace (Z.max 0 (uploadingCountRef (component sys) + 1 - 1))
      with (uploadingCountRef (component sys)) by lia.
    now destruct (component sys).
  - rewrite H5. reflexivity.
  - rewrite H7. simpl. now rewrite List.app_nil_r.
Qed.

Lemma X1_failed_upload_restores_state_witness :
  component
    (run Sample.single
       (EvItemStart (Sample.started Sample.idA Sample.fileA)
          :: List.map EvItemProgress
               [Sample.uploading Sample.idA Sample.fileA (40 # 1);
                Sample.uploading Sample.idA Sample.fileA (100 # 1)]
          ++ [EvItemError (Sample.failed Sample.idA Sample.fileA)])
       (initialSystem VNull))
  = component (initialSystem VNull).
Proof.
  apply (X1_failed_upload_restores_state Sample.single
           (Sample.started Sample.idA Sample.fileA)
           (Sample.failed Sample.idA Sample.fileA)
           [Sample.uploading Sample.idA Sample.fileA (40 # 1);
            Sample.uploading Sample.idA Sample.fileA (100 # 1)]
           (initialSystem VNull)).
  - reflexivity.
  - repeat constructor.
  - reflexivity.
  - reflexivity.
  - simpl. lia.
Defined.

(** ** Selecting a file that is already uploading *)

Lemma fileFilter_duplicate (p : Props) (file : File) (s : State) :
  isDuplicate file (fileMetadataRef s) = true →
  result_of (fileFilter p file) s = false.
Proof.
  intros Hdup. unfold fileFilter. run_handler.
  destruct (exceedsMaxSize p file); [reflexivity|].
  destruct (limitReached p (currentCount s)); [reflexivity|].
  now rewrite Hdup.
Qed.

Lemma sameNameAndSize_startMeta (item : BatchItem) (file : File) :
  item_file item = Some file → sameNameAndSize file (startMeta item) = true.
Proof.
  intros Hfile. unfold sameNameAndSize, startMeta. simpl. rewrite Hfile.
  simpl. now rewrite String.eqb_refl, Z.eqb_refl.
Qed.

(** X2. A file whose upload has started is not admitted a second time:
    once the start event has been followed by a render, the filter
    rejects that file, whatever the limits are. *)
Theorem X2_started_file_not_admitted_again (p : Props) (item : BatchItem)
  (file : File) (sys : System) :
  item_file item = Some file →
  result_of (fileFilter p file)
    (component (run p [EvItemStart item; EvRender] sys)) = false ∧
  effects_of (fileFilter p file)
    (component (run p [EvItemStart item; EvRender] sys)) ≠ [].
Proof.
  intros Hfile.
  assert (Hrej : result_of (fileFilter p file)
                   (component (run p [EvItemStart item; EvRender] sys))
                 = false).
  { apply fileFilter_duplicate. unfold isDuplicate.
    apply List.existsb_exists. exists (startMeta item).
    split; [|now apply sameNameAndSize_startMeta].
    apply JSMapFacts.get_In_values with (k := item_id item).
    cbn. apply JSMapFacts.get_set_eq. }
  split; [exact Hrej|].
  pose proof (fileFilter_effects p file
                (component (run p [EvItemStart item; EvRender] sys))) as H.
  rewrite Hrej in H. destruct H as [m ->]. discriminate.
Qed.

Lemma X2_started_file_not_admitted_again_witness :
  result_of (fileFilter (Sample.multiple None) Sample.fileA)
    (component (run (Sample.multiple None)
                  [EvItemStart (Sample.started Sample.idA Sample.fileA);
                   EvRender]
                  (initialSystem (VArr []))))
  = false.
Proof.
  apply (X2_started_file_not_admitted_again (Sample.multiple None)
           (Sample.started Sample.idA Sample.fileA) Sample.fileA
           (initialSystem (VArr []))).
  reflexivity.
Defined.

(** ** A finish event with a usable reference *)

Lemma step_finish_confirmed (p : Props) (item : BatchItem) (url : string)
  (sys : System) :
  item_state item = StFinished →
  usableUrl item = Some url →
  component (step p (EvItemFinish item) sys)
  = setFileMetadata (mergeFinished item) (decrementUploading (component sys)) ∧
  formValue (step p (EvItemFinish item) sys)
  = (if opt_bool_truthy (isMultiple p)
     then VArr (array_or_empty (view_value (view (component sys))) ++ [url])
     else VStr url) ∧
  log (step p (EvItemFinish item) sys)
  = log sys ++
    [OnChange (if opt_bool_truthy (isMultiple p)
               then VArr (array_or_empty (view_value (view (component sys)))
                            ++ [url])
               else VStr url)].
Proof.
  intros Hst Hurl.
  destruct (onItemFinish_confirmed p item (component sys) url Hst Hurl)
    as [Hs He].
  unfold step, dispatch. cbn [component formValue log].
  rewrite Hs, He. repeat split.
Qed.

(** X3. A finish event with a usable reference calls the value-changed
    callback exactly once: in single mode with the reference itself, in
    multiple mode with the list its closure holds (the empty list when the
    value is not an array) followed by the reference, so the list grows by
    one and ends with the reference.  This does not depend on the item
    still being tracked. *)
Theorem X3_finish_commits_reference (p : Props) (item : BatchItem)
  (url : string) (sys : System) :
  item_state item = StFinished →
  usableUrl item = Some url →
  emitted (log (step p (EvItemFinish item) sys))
  = emitted (log sys) ++ [formValue (step p (EvItemFinish item) sys)] ∧
  (opt_bool_truthy (isMultiple p) = false →
   formValue (step p (EvItemFinish item) sys) = VStr url) ∧
  (opt_bool_truthy (isMultiple p) = true →
   ∃ l, formValue (step p (EvItemFinish item) sys) = VArr l ∧
        l = array_or_empty (view_value (view (component sys))) ++ [url] ∧
        List.length l
        = S (List.length (array_or_empty (view_value (view (component sys)))))
        ∧ List.last l "" = url).
Proof.
  intros Hst Hurl.
  destruct (step_finish_confirmed p item url sys Hst Hurl) as (_ & Hv & Hl).
  rewrite Hv, Hl, emitted_app. simpl.
  split; [reflexivity|].
  split; [intros ->; reflexivity|].
  intros ->. eexists. split; [reflexivity|]. split; [reflexivity|].
  split.
  - rewrite List.length_app. simpl. lia.
  - apply List.last_last.
Qed.

Lemma X3_finish_commits_reference_witness :
  formValue
    (step Sample.single
       (EvItemFinish (Sample.finished Sample.idA Sample.fileA "r1" "s1.png"))
       (run Sample.single Sample.inProgress (initialSystem VNull)))
  = VStr "r1".
Proof.
  apply (X3_finish_commits_reference Sample.single
           (Sample.finished Sample.idA Sample.fileA "r1" "s1.png") "r1"
           (run Sample.single Sample.inProgress (initialSystem VNull)));
    reflexivity.
Defined.

(** ** How the handlers change the tracker *)

Section TrackerFacts.
Context {V : Type}.
Implicit Types (m : JSMap.t V) (k : string) (v : V).

Lemma keys_set_present m k v old :
  JSMap.get k m = Some old → JSMap.keys (JSMap.set k v m) = JSMap.keys m.
Proof.
  induction m as [|[k' v'] r IH]; simpl; [discriminate|].
  destruct (String.eqb_spec k' k) as [->|Hne]; simpl; [reflexivity|].
  intros H. f_equal. now apply IH.
Qed.

Lemma get_delete_Some m k k' v :
  JSMap.get k' (JSMap.delete k m) = Some v → JSMap.get k' m = Some v.
Proof.
  destruct (String.eqb_spec k k') as [->|Hne].
  - now rewrite JSMapFacts.get_delete_eq.
  - now rewrite JSMapFacts.get_delete_ne.
Qed.

End TrackerFacts.

Lemma usableUrl_Some (item : BatchItem) (url : string) :
  usableUrl item = Some url →
  responseOf item ≫= rd_url = Some url ∧ url ≠ "".
Proof.
  unfold usableUrl. destruct (responseOf item ≫= rd_url) as [u|];
    [|discriminate].
  destruct (String.eqb_spec u "") as [->|Hne]; [discriminate|].
  intros [= ->]. now split.
Qed.

Lemma mergeFinished_other (item : BatchItem) (m : JSMap.t Meta)
  (id : string) :
  id ≠ item_id item → JSMap.get id (mergeFinished item m) = JSMap.get id m.
Proof.
  intros Hne. unfold mergeFinished.
  destruct (JSMap.get (item_id item) m); [|reflexivity].
  apply JSMapFacts.get_set_ne. congruence.
Qed.

Lemma onItemFinish_tracker (p : Props) (item : BatchItem) (s : State) :
  fileMetadata (state_after (onItemFinish p item) s) = fileMetadata s ∨
  fileMetadata (state_after (onItemFinish p item) s)
  = mergeFinished item (fileMetadata s).
Proof.
  unfold onItemFinish. run_handler.
  destruct (is_finished (item_state item)); [|now left].
  destruct (usableUrl item); [|now left].
  run_handler. destruct (opt_bool_truthy (isMultiple p)); now right.
Qed.

Lemma onClick_tracker (p : Props) (id : string) (s : State) :
  fileMetadata (state_after (onClick p id) s) = fileMetadata s ∨
  fileMetadata (state_after (onClick p id) s)
  = JSMap.delete id (fileMetadata s).
Proof.
  unfold onClick. run_handler.
  destruct (JSMap.get id (view_fileMetadata (view s))); [|now left].
  destruct (view_uploadProgress (view s) !! id); [now left | now right].
Qed.

(** X4. A finish event with a usable reference rewrites the item's entry
    in place when the item is tracked: the entry then carries the
    server's reference and storage name and counts as confirmed, and the
    order of the tracked ids is unchanged.  When the item is not tracked
    any more, no entry is created. *)
Theorem X4_finish_rewrites_entry_in_place (p : Props) (item : BatchItem)
  (url : string) (sys : System) :
  item_state item = StFinished →
  usableUrl item = Some url →
  JSMap.keys (fileMetadata (component (step p (EvItemFinish item) sys)))
  = JSMap.keys (fileMetadata (component sys)) ∧
  (JSMap.get (item_id item) (fileMetadata (component sys)) = None →
   fileMetadata (component (step p (EvItemFinish item) sys))
   = fileMetadata (component sys)) ∧
  (∀ old,
     JSMap.get (item_id item) (fileMetadata (component sys)) = Some old →
     ∃ meta,
       JSMap.get (item_id item)
         (fileMetadata (component (step p (EvItemFinish item) sys)))
       = Some meta ∧
       meta_url meta = Some url ∧
       meta_filename meta = responseOf item ≫= rd_filename ∧
       confirmed meta = true ∧
       remoteName meta = responseOf item ≫= rd_filename).
Proof.
  intros Hst Hurl.
  destruct (step_finish_confirmed p item url sys Hst Hurl) as (-> & _ & _).
  destruct (usableUrl_Some item url Hurl) as [Hrd _].
  cbn [fileMetadata setFileMetadata decrementUploading setUploadingCount].
  unfold mergeFinished.
  destruct (JSMap.get (item_id item) (fileMetadata (component sys)))
    as [old|] eqn:Hget.
  - split; [now apply keys_set_present with (old := old)|].
    split; [discriminate|].
    intros old' _. exists (finishMeta old (responseOf item)).
    split; [apply JSMapFacts.get_set_eq|].
    split; [exact Hrd|]. repeat split.
  - split; [reflexivity|]. split; [reflexivity | discriminate].
Qed.

Lemma X4_finish_rewrites_entry_in_place_witness :
  JSMap.keys
    (fileMetadata
       (component
          (step (Sample.multiple None)
             (EvItemFinish
                (Sample.finished Sample.idA Sample.fileA "r1" "s1.png"))
             (run (Sample.multiple None) Sample.batchOfThree
                (initialSystem (VArr []))))))
  = [Sample.idA; Sample.idB; Sample.idC].
Proof.
  destruct (X4_finish_rewrites_entry_in_place (Sample.multiple None)
              (Sample.finished Sample.idA Sample.fileA "r1" "s1.png") "r1"
              (run (Sample.multiple None) Sample.batchOfThree
                 (initialSystem (VArr []))))
    as (Hkeys & _); [reflexivity | reflexivity |].
  exact Hkeys.
Defined.

(** X5. The events of one item never touch another item: a start,
    progress, error or finish event for an item, or a click on its close
    button, leaves the tracker entry and the progress entry of every
    other id as they were. *)
Theorem X5_events_touch_one_item (p : Props) (ev : Event) (id other : string)
  (sys : System) :
  eventItem ev = Some id →
  other ≠ id →
  JSMap.get other (fileMetadata (component (step p ev sys)))
  = JSMap.get other (fileMetadata (component sys)) ∧
  uploadProgress (component (step p ev sys)) !! other
  = uploadProgress (component sys) !! other.
Proof.
  intros Hev Hne.
  destruct ev as [file|item|item|item|item|id0|contains|b|];
    try discriminate; injection Hev as <-;
    unfold step, dispatch; cbn [component].
  - split; [|reflexivity]. cbn. apply JSMapFacts.get_set_ne. congruence.
  - rewrite onItemProgress_state. cbn. split; [reflexivity|].
    destruct (Qltb (item_completed item) (100 # 1)).
    + apply lookup_insert_ne. congruence.
    + apply lookup_delete_ne. congruence.
  - rewrite onItemError_state. cbn. split.
    + apply JSMapFacts.get_delete_ne. congruence.
    + apply lookup_delete_ne. congruence.
  - rewrite onItemFinish_progress. split; [|reflexivity].
    destruct (onItemFinish_tracker p item (component sys)) as [-> | ->];
      [reflexivity | now apply mergeFinished_other].
  - split.
    + destruct (onClick_tracker p id0 (component sys)) as [-> | ->];
        [reflexivity | apply JSMapFacts.get_delete_ne; congruence].
    + destruct (onClick_progress p id0 (component sys)) as [-> | ->];
        [reflexivity | apply lookup_delete_ne; congruence].
Qed.

Lemma X5_events_touch_one_item_witness :
  JSMap.get Sample.idB
    (fileMetadata
       (component
          (step (Sample.multiple None)
             (EvItemError (Sample.failed Sample.idA Sample.fileA))
             (run (Sample.multiple None) Sample.batchOfThree
                (initialSystem (VArr []))))))
  = JSMap.get Sample.idB
      (fileMetadata
         (component (run (Sample.multiple None) Sample.batchOfThree
                       (initialSystem (VArr []))))).
Proof.
  apply (X5_events_touch_one_item (Sample.multiple None)
           (EvItemError (Sample.failed Sample.idA Sample.fileA))
           Sample.idA Sample.idB).
  - reflexivity.
  - discriminate.
Defined.

(** ** Invariants over traces *)

Lemma step_tracker_origin (p : Props) (ev : Event) (sys : System)
  (id : string) (meta : Meta) :
  JSMap.get id (fileMetadata (component (step p ev sys))) = Some meta →
  (∃ before, JSMap.get id (fileMetadata (component sys)) = Some before) ∨
  (∃ item, ev = EvItemStart item ∧ item_id item = id).
Proof.
  destruct ev as [file|item|item|item|item|id0|contains|b|];
    unfold step, dispatch; cbn [component].
  - destruct (result_of (fileFilter p file) (component sys));
      cbn [component]; rewrite fileFilter_state; eauto.
  - cbn. destruct (String.eqb_spec (item_id item) id) as [Heq|Hne].
    + intros _. right. eauto.
    + rewrite JSMapFacts.get_set_ne by exact Hne. eauto.
  - rewrite onItemProgress_state. cbn. eauto.
  - rewrite onItemError_state. cbn. intros H.
    apply get_delete_Some in H. eauto.
  - destruct (onItemFinish_tracker p item (component sys)) as [-> | ->];
      [eauto|].
    unfold mergeFinished.
    destruct (JSMap.get (item_id item) (fileMetadata (component sys)))
      as [old|] eqn:Hget; [|eauto].
    destruct (String.eqb_spec (item_id item) id) as [<-|Hne].
    + eauto.
    + rewrite JSMapFacts.get_set_ne by exact Hne. eauto.
  - destruct (onClick_tracker p id0 (component sys)) as [-> | ->];
      [eauto|].
    intros H. apply get_delete_Some in H. eauto.
  - destruct contains; [discriminate | eauto].
  - rewrite cleanupAllFiles_state. eauto.
  - cbn. eauto.
Qed.

Lemma In_startedItems (item : BatchItem) (evs : list Event) :
  In item (startedItems evs) ↔ In (EvItemStart item) evs.
Proof.
  induction evs as [|ev evs IH]; simpl; [tauto|].
  destruct ev; simpl; rewrite IH; firstorder congruence.
Qed.

Lemma run_tracker_origin (p : Props) (evs : list Event) (sys : System)
  (id : string) (meta : Meta) :
  JSMap.get id (fileMetadata (component (run p evs sys))) = Some meta →
  (∃ before, JSMap.get id (fileMetadata (component sys)) = Some before) ∨
  (∃ item, In item (startedItems evs) ∧ item_id item = id).
Proof.
  revert sys. induction evs as [|ev evs IH]; intros sys Hget.
  - left. eauto.
  - rewrite run_cons in Hget.
    destruct (IH _ Hget) as [[before Hb] | (item & Hin & Hid)].
    + destruct (step_tracker_origin p ev sys id before Hb)
        as [H | (item & -> & Hid)]; [now left|].
      right. exists item. split; [now left | exact Hid].
    + right. exists item. split; [|exact Hid].
      apply In_startedItems. right. now apply In_startedItems.
Qed.

(** X6. The tracker holds only items the engine has started: in every
    state reached from the initial one, each tracked id is the id of a
    start event of the trace. *)
Theorem X6_tracked_items_were_started (p : Props) (evs : list Event)
  (v : jsvalue) (id : string) (meta : Meta) :
  JSMap.get id (fileMetadata (component (run p evs (initialSystem v))))
  = Some meta →
  ∃ item, In (EvItemStart item) evs ∧ item_id item = id.
Proof.
  intros Hget.
  destruct (run_tracker_origin p evs (initialSystem v) id meta Hget)
    as [[before Hb] | (item & Hin & Hid)].
  - discriminate.
  - exists item. split; [now apply In_startedItems | exact Hid].
Qed.

Lemma X6_tracked_items_were_started_witness :
  ∃ item, In (EvItemStart item) Sample.cancelInProgress ∧
          item_id item = Sample.idA.
Proof.
  apply (X6_tracked_items_were_started Sample.single Sample.cancelInProgress
           VNull Sample.idA
           (startMeta (Sample.started Sample.idA Sample.fileA))).
  reflexivity.
Defined.

Lemma step_count_bound (p : Props) (ev : Event) (sys : System) :
  0 <= uploadingCountRef (component sys) →
  uploadingCountRef (component (step p ev sys))
  <= uploadingCountRef (component sys)
     + Z.of_nat (List.length (startedItems [ev])).
Proof.
  intros Hinv.
  destruct ev as [file|item|item|item|item|id|contains|b|]; simpl.
  - destruct (result_of (fileFilter p file) (component sys)); simpl;
      rewrite fileFilter_state; lia.
  - lia.
  - rewrite onItemProgress_state. simpl. lia.
  - lia.
  - rewrite onItemFinish_count. lia.
  - destruct (onClick_count p id (component sys)) as [-> | ->]; lia.
  - destruct contains; [simpl; lia|]. cbn. lia.
  - rewrite cleanupAllFiles_state. lia.
  - lia.
Qed.

Lemma startedItems_cons_length (ev : Event) (evs : list Event) :
  List.length (startedItems (ev :: evs))
  = (List.length (startedItems [ev]) + List.length (startedItems evs))%nat.
Proof. destruct ev; reflexivity. Qed.

Lemma run_count_bound (p : Props) (evs : list Event) (sys : System) :
  0 <= uploadingCountRef (component sys) →
  0 <= uploadingCountRef (component (run p evs sys)) ∧
  uploadingCountRef (component (run p evs sys))
  <= uploadingCountRef (component sys)
     + Z.of_nat (List.length (startedItems evs)).
Proof.
  revert sys. induction evs as [|ev evs IH]; intros sys Hinv.
  - simpl. lia.
  - rewrite run_cons, startedItems_cons_length.
    pose proof (uploadingCount_nonneg_step p ev sys Hinv) as H0.
    pose proof (step_count_bound p ev sys Hinv) as H1.
    destruct (IH (step p ev sys) H0) as [H2 H3].
    split; [exact H2 | lia].
Qed.

(** X7. In every state reached from the initial one the in-flight counter
    is at least zero and at most the number of start events of the
    trace. *)
Theorem X7_counter_bounds (p : Props) (evs : list Event) (v : jsvalue) :
  0 <= uploadingCountRef (component (run p evs (initialSystem v))) ∧
  uploadingCountRef (component (run p evs (initialSystem v)))
  <= Z.of_nat (List.length (startedItems evs)).
Proof.
  destruct (run_count_bound p evs (initialSystem v)) as [H1 H2];
    [simpl; lia|].
  split; [exact H1 | exact H2].
Qed.

(** ** The upload button and the count rule *)

Lemma showUploadButton_limit (p : Props) (s : State) :
  showUploadButton p s
  = negb (limitReached p (JSMap.size (fileMetadata s) + uploadingCountRef s)).
Proof.
  unfold showUploadButton, limitReached.
  destruct (maxFiles p) as [[z| |]|]; simpl; try reflexivity.
  rewrite negb_andb. f_equal. rewrite Z.leb_antisym. now rewrite negb_involutive.
Qed.

Lemma fileFilter_below_limit (p : Props) (file : File) (s : State) :
  limitReached p (currentCount s) = false →
  result_of (fileFilter p file) s
  = negb (exceedsMaxSize p file) && negb (isDuplicate file (fileMetadataRef s)).
Proof.
  intros Hlim. unfold fileFilter. run_handler. rewrite Hlim.
  destruct (exceedsMaxSize p file); [reflexivity|].
  destruct (isDuplicate file (fileMetadataRef s)); reflexivity.
Qed.

(** X8. The upload button and the filter agree on the count limit: in a
    state as a render leaves it, when the button is hidden the filter
    rejects every file, and when the button is shown the filter rejects a
    file only for its size or as a duplicate. *)
Theorem X8_button_agrees_with_filter (p : Props) (v : jsvalue) (s : State)
  (file : File) :
  (showUploadButton p (render v s) = false →
   result_of (fileFilter p file) (render v s) = false) ∧
  (showUploadButton p (render v s) = true →
   result_of (fileFilter p file) (render v s)
   = negb (exceedsMaxSize p file)
     && negb (isDuplicate file (fileMetadata s))).
Proof.
  rewrite showUploadButton_limit.
  change (JSMap.size (fileMetadata (render v s))
          + uploadingCountRef (render v s))
    with (currentCount (render v s)).
  split; intros H.
  - apply negb_false_iff in H.
    apply fileFilter_at_limit. now apply limitReached_spec.
  - apply negb_true_iff in H.
    now rewrite (fileFilter_below_limit p file (render v s) H).
Qed.

Lemma X8_button_agrees_with_filter_witness :
  result_of (fileFilter Sample.single Sample.fileB)
    (render VNull
       (component (run Sample.single Sample.oneUploading
                     (initialSystem VNull))))
  = false ∧
  result_of (fileFilter Sample.single Sample.fileB)
    (render VNull (initialState VNull))
  = negb (exceedsMaxSize Sample.single Sample.fileB)
    && negb (isDuplicate Sample.fileB (fileMetadata (initialState VNull))).
Proof.
  split.
  - apply (X8_button_agrees_with_filter Sample.single VNull
             (component (run Sample.single Sample.oneUploading
                           (initialSystem VNull)))
             Sample.fileB).
    reflexivity.
  - apply (X8_button_agrees_with_filter Sample.single VNull
             (initialState VNull) Sample.fileB).
    reflexivity.
Defined.

(** ** After a reset *)

(** X9. After a reset of the form and the render that follows, the field
    admits files again: every file that is not over the size limit is
    accepted without a notification (for a maximum count that is not
    negative), whatever was tracked or in flight before the reset. *)
Theorem X9_reset_reopens_admission (p : Props) (sys : System) (file : File) :
  ¬ tooLarge p file →
  (∀ n, maxFiles p = Some (JNum n) → 0 <= n) →
  result_of (fileFilter p file)
    (component (run p [EvFormReset true; EvRender] sys)) = true ∧
  effects_of (fileFilter p file)
    (component (run p [EvFormReset true; EvRender] sys)) = [].
Proof.
  intros Hsize Hmax.
  change (component (run p [EvFormReset true; EvRender] sys))
    with (render (formValue (step p (EvFormReset true) sys))
            (state_after (handleFormReset p true) (component sys))).
  rewrite handleFormReset_state.
  match goal with
  | |- result_of _ ?s = _ ∧ _ =>
      destruct (fileFilter_rules p file s) as (_ & _ & _ & Hacc)
  end.
  apply Hacc; [exact Hsize | |].
  - intros (n & Hn & Hne & Hle).
    specialize (Hmax n Hn). unfold currentCount, JSMap.size, JSMap.empty in Hle. cbn in Hle. lia.
  - intros (meta & Hin & _). cbn in Hin. exact Hin.
Qed.

Lemma X9_reset_reopens_admission_witness :
  result_of (fileFilter Sample.single Sample.fileA)
    (component (run Sample.single [EvFormReset true; EvRender]
                  (run Sample.single Sample.cancelInProgress
                     (initialSystem VNull))))
  = true.
Proof.
  apply (X9_reset_reopens_admission Sample.single
           (run Sample.single Sample.cancelInProgress (initialSystem VNull))
           Sample.fileA).
  - intros (n & Hn & _). discriminate Hn.
  - intros n Hn. injection Hn as <-. lia.
Defined.

(** ** The close button *)

(** X10. The close button of a preview aborts the upload exactly when the
    render showed a progress entry for the item, and issues the delete
    request exactly when it showed none; for an item the render did not
    track it does nothing.  It never does both. *)
Theorem X10_close_button (p : Props) (id : string) (s : State) :
  (In (AbortItem id) (effects_of (onClick p id) s) ↔
   is_Some (JSMap.get id (view_fileMetadata (view s))) ∧
   is_Some (view_uploadProgress (view s) !! id)) ∧
  ((∃ url, In (FetchDelete url) (effects_of (onClick p id) s)) ↔
   is_Some (JSMap.get id (view_fileMetadata (view s))) ∧
   view_uploadProgress (view s) !! id = None) ∧
  (JSMap.get id (view_fileMetadata (view s)) = None →
   state_after (onClick p id) s = s ∧ effects_of (onClick p id) s = []).
Proof.
  unfold onClick. run_handler.
  destruct (JSMap.get id (view_fileMetadata (view s))) as [meta|] eqn:Hmeta.
  - destruct (view_uploadProgress (view s) !! id) as [q|] eqn:Hq.
    + run_handler. split; [|split].
      * split; [intros _; split; eauto | intros _; now left].
      * split; [|intros [_ H]; discriminate].
        intros (url & [H|[H|[H|[]]]]); discriminate.
      * discriminate.
    + unfold handleRemove. run_handler. rewrite Hmeta. split; [|split].
      * split; [|intros [_ [q H]]; discriminate].
        intros [H|[H|[H|[]]]]; discriminate.
      * split; [intros _; split; eauto|].
        intros _. eexists. right. left. reflexivity.
      * discriminate.
  - split; [|split].
    + split; [intros [] | intros [[m H] _]; discriminate].
    + split; [intros (url & []) | intros [[m H] _]; discriminate].
    + intros _. split; reflexivity.
Qed.

Lemma X10_close_button_witness :
  state_after (onClick Sample.single Sample.idB)
    (component (run Sample.single Sample.inProgress (initialSystem VNull)))
  = component (run Sample.single Sample.inProgress (initialSystem VNull)) ∧
  In (AbortItem Sample.idA)
    (effects_of (onClick Sample.single Sample.idA)
       (component (run Sample.single Sample.inProgress
                     (initialSystem VNull)))).
Proof.
  split.
  - apply (X10_close_button Sample.single Sample.idB
             (component (run Sample.single Sample.inProgress
                           (initialSystem VNull)))).
    reflexivity.
  - apply (X10_close_button Sample.single Sample.idA
             (component (run Sample.single Sample.inProgress
                           (initialSystem VNull)))).
    split; eexists; reflexivity.
Defined.

(** ** Removing an item the server has not confirmed *)

Lemma filter_all (l : list string) : List.filter (λ _ : string, true) l = l.
Proof. induction l as [|x l IH]; simpl; [reflexivity | now rewrite IH]. Qed.

Lemma differsFrom_no_url (metadata : option Meta) :
  metadata ≫= meta_url = None → differsFrom metadata = (λ _, true).
Proof. intros H. unfold differsFrom. now rewrite H. Qed.

(** X11. Removing an item whose entry carries no reference (the server
    never confirmed it, or the render holds no entry for it) drops the
    entry and still issues a delete request, keyed by whatever name the
    entry has or by the text [undefined] when there is none; in multiple
    mode the list handed to the callback is the closure's list with every
    reference kept, in single mode it is null. *)
Theorem X11_remove_unconfirmed (p : Props) (id : string) (sys : System) :
  JSMap.get id (view_fileMetadata (view (component sys))) ≫= meta_url = None →
  JSMap.get id (fileMetadata (state_after (handleRemove p id) (component sys)))
  = None ∧
  List.filter is_request (effects_of (handleRemove p id) (component sys))
  = [FetchDelete
       (deleteUrl (JSMap.get id (view_fileMetadata (view (component sys)))))] ∧
  (JSMap.get id (view_fileMetadata (view (component sys))) ≫= meta_filename
   = None →
   deleteUrl (JSMap.get id (view_fileMetadata (view (component sys))))
   = "/api/upload/temp/undefined") ∧
  (opt_bool_truthy (isMultiple p) = true →
   ∀ value, view_value (view (component sys)) = VArr value →
            formValue (dispatch (handleRemove p id) sys) = VArr value) ∧
  (opt_bool_truthy (isMultiple p) = false →
   formValue (dispatch (handleRemove p id) sys) = VNull).
Proof.
  intros Hurl.
  split.
  { rewrite handleRemove_state. simpl. apply JSMapFacts.get_delete_eq. }
  split.
  { unfold handleRemove. run_handler. reflexivity. }
  split.
  { intros Hname. unfold deleteUrl. now rewrite Hname. }
  split.
  - intros Hmulti value Hval. unfold dispatch, handleRemove. run_handler.
    rewrite Hmulti, Hval, (differsFrom_no_url _ Hurl), filter_all.
    reflexivity.
  - intros Hsingle. unfold dispatch, handleRemove. run_handler.
    now rewrite Hsingle.
Qed.

Lemma X11_remove_unconfirmed_witness :
  formValue
    (dispatch (handleRemove (Sample.multiple None) Sample.idB)
       (run (Sample.multiple None) Sample.oneFinishedOneUploading
          (initialSystem (VArr []))))
  = VArr ["r1"].
Proof.
  destruct (X11_remove_unconfirmed (Sample.multiple None) Sample.idB
              (run (Sample.multiple None) Sample.oneFinishedOneUploading
                 (initialSystem (VArr []))))
    as (_ & _ & _ & Hmulti & _); [reflexivity|].
  exact (Hmulti eq_refl ["r1"] eq_refl).
Defined.

(** ** The extension shown on a file preview *)

Lemma splitDots_nonempty (s : string) : splitDots s ≠ [].
Proof.
  induction s as [|c r IH]; simpl; [discriminate|].
  destruct (Ascii.eqb c "."); [discriminate|].
  destruct (splitDots r); [contradiction | discriminate].
Qed.

Lemma splitDots_no_dot (s : string) : hasDot s = false → splitDots s = [s].
Proof.
  induction s as [|c r IH]; simpl; [reflexivity|].
  destruct (Ascii.eqb c "."); simpl; [discriminate|].
  intros H. now rewrite (IH H).
Qed.

Lemma splitDots_app (a b : string) :
  splitDots (String.append a (String "." b)) = splitDots a ++ splitDots b.
Proof.
  induction a as [|c r IH]; simpl.
  - reflexivity.
  - destruct (Ascii.eqb c "."); simpl; [now rewrite IH|].
    rewrite IH.
    destruct (splitDots r) as [|h t] eqn:E; [|reflexivity].
    now apply splitDots_nonempty in E.
Qed.

Lemma previewFilename_tracked (meta : Meta) (name : option string)
  (original : string) :
  meta_originalName meta = Some original → original ≠ "" →
  previewFilename (Some meta) name = original.
Proof.
  intros H Hne. unfold previewFilename. simpl. rewrite H. simpl.
  now destruct (String.eqb_spec original "").
Qed.

(** X12. The label on a file preview is the part of the file name after
    its last dot, in upper case, whatever stands before it (for a name
    ending in a dot, the upper case of the empty text); a name without a
    dot, or no name at all, gives [FILE].  The name is the tracked
    original name when that is present and not empty; when it is missing
    or empty, it is the preview's own name, and the empty text when that
    is missing too. *)
Theorem X12_extension_label (toUpperCase : string → string)
  (metadata : option Meta) (name : option string) :
  (hasDot (previewFilename metadata name) = false →
   extensionLabel toUpperCase metadata name = "FILE") ∧
  (∀ stem ext,
     previewFilename metadata name = String.append stem (String "." ext) →
     hasDot ext = false →
     extensionLabel toUpperCase metadata name = toUpperCase ext) ∧
  (∀ meta original,
     metadata = Some meta → meta_originalName meta = Some original →
     original ≠ "" → previewFilename metadata name = original) ∧
  (metadata ≫= meta_originalName = None ∨
   metadata ≫= meta_originalName = Some "" →
   previewFilename metadata name = default "" name).
Proof.
  unfold extensionLabel. split; [|split; [|split]].
  - intros Hno. now rewrite (splitDots_no_dot _ Hno).
  - intros stem ext -> Hno.
    rewrite splitDots_app, (splitDots_no_dot ext Hno).
    rewrite List.last_last, List.length_app. simpl.
    destruct (splitDots stem) as [|h t] eqn:E;
      [now apply splitDots_nonempty in E|].
    simpl. destruct (List.length t); reflexivity.
  - intros meta original -> H Hne. now apply previewFilename_tracked.
  - intros H. unfold previewFilename.
    assert (Hfalsy : opt_str_truthy (metadata ≫= meta_originalName) = false)
      by (destruct H as [-> | ->]; reflexivity).
    rewrite Hfalsy.
    destruct name as [n|]; simpl; [|reflexivity].
    now destruct (String.eqb_spec n "") as [->|].
Qed.

(** A tracked PDF shows [PDF]; a tracked file without a dot in its name
    shows [FILE]; an entry with an empty original name is labelled from
    the preview's name. *)
Lemma X12_extension_label_witness :
  extensionLabel upperAsciiString
    (Some (startMeta (Sample.started Sample.idC Sample.fileC)))
    (Some "c.pdf")
  = "PDF" ∧
  extensionLabel upperAsciiString
    (Some (mkMeta None (Some "README") (Some "README") (Some 120) None None))
    (Some "README")
  = "FILE" ∧
  previewFilename
    (Some (mkMeta None (Some "x.bin") (Some "") (Some 120) None None))
    (Some "notes.txt")
  = "notes.txt".
Proof.
  split; [|split].
  - apply (X12_extension_label upperAsciiString
             (Some (startMeta (Sample.started Sample.idC Sample.fileC)))
             (Some "c.pdf")) with (stem := "c") (ext := "pdf");
      reflexivity.
  - apply (X12_extension_label upperAsciiString
             (Some (mkMeta None (Some "README") (Some "README") (Some 120)
                      None None))
             (Some "README")).
    reflexivity.
  - apply (X12_extension_label upperAsciiString
             (Some (mkMeta None (Some "x.bin") (Some "") (Some 120) None None))
             (Some "notes.txt")).
    right. reflexivity.
Defined.

(** * The time schema of [FieldFactory] *)
Module TimeSchemaFacts.
Import FieldClass TimeSchema.

Lemma inRange_spec (lo hi c : ascii) :
  inRange lo hi c = true ↔
  (N_of_ascii lo <= N_of_ascii c)%N ∧ (N_of_ascii c <= N_of_ascii hi)%N.
Proof.
  unfold inRange. now rewrite andb_true_iff, !N.leb_le.
Qed.

(** The strings the pattern matches: two digits of an hour below 24, a
    colon, two digits of a minute below 60. *)
Lemma matchesTime_inv (s : string) :
  matchesTime s = true →
  ∃ h1 h2 m1 m2,
    s = String h1 (String h2 (String ":" (String m1 (String m2 "")))) ∧
    0 <= digit h1 ∧ 0 <= digit h2 <= 9 ∧ 10 * digit h1 + digit h2 <= 23 ∧
    0 <= digit m1 <= 5 ∧ 0 <= digit m2 <= 9.
Proof.
  destruct s as [|h1 [|h2 [|c [|m1 [|m2 [|x r]]]]]]; try discriminate.
  unfold matchesTime.
  rewrite !andb_true_iff, orb_true_iff, !andb_true_iff, !inRange_spec.
  rewrite !Ascii.eqb_eq. unfold digit. simpl N_of_ascii.
  intros [[Hh ->] [Hm1 Hm2]].
  exists h1, h2, m1, m2. split; [reflexivity|].
  destruct Hh as [[H1 H2] | [-> H2]]; simpl N_of_ascii; lia.
Qed.

Lemma minutesOf_range (s : string) :
  matchesTime s = true → 0 <= minutesOf s < 1440.
Proof.
  intros H. destruct (matchesTime_inv s H) as (h1 & h2 & m1 & m2 & -> & Hb).
  simpl. lia.
Qed.

Lemma ascii_compare_digit (a b : ascii) :
  match Ascii.compare a b with
  | Eq => digit a = digit b
  | Lt => digit a < digit b
  | Gt => digit a > digit b
  end.
Proof.
  unfold Ascii.compare, digit.
  destruct (N.compare_spec (N_of_ascii a) (N_of_ascii b)); lia.
Qed.

Lemma leb_chronological (a b : string) :
  matchesTime a = true → matchesTime b = true →
  (String.leb a b = true ↔ minutesOf a <= minutesOf b).
Proof.
  intros Ha Hb.
  destruct (matchesTime_inv a Ha) as (a1 & a2 & a3 & a4 & -> & HA).
  destruct (matchesTime_inv b Hb) as (b1 & b2 & b3 & b4 & -> & HB).
  unfold String.leb. cbn [String.compare minutesOf].
  change (Ascii.compare ":" ":") with Eq. cbv iota.
  pose proof (ascii_compare_digit a1 b1) as H1.
  pose proof (ascii_compare_digit a2 b2) as H2.
  pose proof (ascii_compare_digit a3 b3) as H3.
  pose proof (ascii_compare_digit a4 b4) as H4.
  destruct (Ascii.compare a1 b1); [|split; [lia | reflexivity]
                                   |split; [discriminate | lia]].
  destruct (Ascii.compare a2 b2); [|split; [lia | reflexivity]
                                   |split; [discriminate | lia]].
  destruct (Ascii.compare a3 b3); [|split; [lia | reflexivity]
                                   |split; [discriminate | lia]].
  destruct (Ascii.compare a4 b4);
    [split; [lia | reflexivity] | split; [lia | reflexivity]
     | split; [discriminate | lia]].
Qed.

Lemma minutesOf_injective (a b : string) :
  matchesTime a = true → matchesTime b = true →
  minutesOf a = minutesOf b → a = b.
Proof.
  intros Ha Hb Heq. apply String.leb_antisym.
  - apply leb_chronological; [assumption..|lia].
  - apply leb_chronological; [assumption..|lia].
Qed.

End TimeSchemaFacts.

(** X13. For times in the form the schema demands, the comparison of
    strings that the bounds use is the order of the clock: one valid time
    is at most another as a string exactly when it denotes no more
    minutes since midnight, and two valid times denoting the same minute
    are the same string. *)
Theorem X13_time_strings_order_chronologically (a b : string) :
  TimeSchema.matchesTime a = true →
  TimeSchema.matchesTime b = true →
  (TimeSchema.str_le a b = true ↔
   TimeSchema.minutesOf a <= TimeSchema.minutesOf b) ∧
  (TimeSchema.str_ge a b = true ↔
   TimeSchema.minutesOf b <= TimeSchema.minutesOf a) ∧
  (TimeSchema.minutesOf a = TimeSchema.minutesOf b → a = b) ∧
  0 <= TimeSchema.minutesOf a < 1440.
Proof.
  intros Ha Hb. unfold TimeSchema.str_le, TimeSchema.str_ge.
  split; [now apply TimeSchemaFacts.leb_chronological|].
  split; [now apply TimeSchemaFacts.leb_chronological|].
  split; [|now apply TimeSchemaFacts.minutesOf_range].
  now apply TimeSchemaFacts.minutesOf_injective.
Qed.

Lemma X13_time_strings_order_chronologically_witness :
  TimeSchema.str_le "09:30" "17:05" = true ↔
  TimeSchema.minutesOf "09:30" <= TimeSchema.minutesOf "17:05".
Proof.
  apply (X13_time_strings_order_chronologically "09:30" "17:05");
    reflexivity.
Defined.

Lemma time_bounds_chronological (a b : string) :
  TimeSchema.matchesTime a = true →
  TimeSchema.matchesTime b = true →
  (TimeSchema.str_le a b = true ↔
   TimeSchema.minutesOf a <= TimeSchema.minutesOf b) ∧
  (TimeSchema.str_ge a b = true ↔
   TimeSchema.minutesOf b <= TimeSchema.minutesOf a).
Proof.
  intros Ha Hb. unfold TimeSchema.str_le, TimeSchema.str_ge.
  split; now apply TimeSchemaFacts.leb_chronological.
Qed.

Lemma time_accepts_checks (c : FieldClass.Config) (val : option string) :
  TimeSchema.accepts c val
  = (negb (opt_bool_truthy (FieldClass.isRequired c))
     || TimeSchema.requiredCheck val)
    && TimeSchema.formatCheck val
    && TimeSchema.minCheck c val
    && TimeSchema.maxCheck c val.
Proof.
  unfold TimeSchema.accepts, TimeSchema.issues, TimeSchema.refinements.
  destruct (opt_bool_truthy (FieldClass.isRequired c)); simpl;
    destruct (TimeSchema.requiredCheck val), (TimeSchema.formatCheck val),
      (TimeSchema.minCheck c val), (TimeSchema.maxCheck c val);
    reflexivity.
Qed.

(** X14. What the time schema accepts.  An absent or empty value passes
    exactly when the field is not required, whatever the bounds; a
    non-empty value passes exactly when it has the form HH:MM and lies,
    as a time of day, between the bounds that are given as valid times;
    a bound given as a number is ignored. *)
Theorem X14_time_schema_accepts (c : FieldClass.Config)
  (val : option string) :
  (TimeSchema.absent val = true →
   TimeSchema.accepts c val
   = negb (opt_bool_truthy (FieldClass.isRequired c))) ∧
  (∀ s lo hi,
     val = Some s → s ≠ "" →
     FieldClass.min c = Some (inr lo) → TimeSchema.matchesTime lo = true →
     FieldClass.max c = Some (inr hi) → TimeSchema.matchesTime hi = true →
     (TimeSchema.accepts c val = true ↔
      TimeSchema.matchesTime s = true ∧
      TimeSchema.minutesOf lo <= TimeSchema.minutesOf s
      <= TimeSchema.minutesOf hi)) ∧
  (∀ s n m,
     val = Some s → s ≠ "" →
     FieldClass.min c = Some (inl n) → FieldClass.max c = Some (inl m) →
     TimeSchema.accepts c val = TimeSchema.matchesTime s).
Proof.
  rewrite time_accepts_checks.
  split; [|split].
  - intros Habs.
    unfold TimeSchema.formatCheck, TimeSchema.minCheck, TimeSchema.maxCheck.
    rewrite Habs. simpl.
    unfold TimeSchema.absent in Habs. apply negb_true_iff in Habs.
    assert (Hreq : TimeSchema.requiredCheck val = false).
    { destruct val as [s|]; [|reflexivity]. simpl in *.
      now rewrite negb_false_iff in *. }
    rewrite Hreq. now rewrite orb_false_r, !andb_true_r.
  - intros s lo hi -> Hne Hmin Hlo Hmax Hhi.
    assert (Hpresent : TimeSchema.absent (Some s) = false).
    { unfold TimeSchema.absent. simpl.
      destruct (String.eqb_spec s ""); [contradiction | reflexivity]. }
    unfold TimeSchema.formatCheck, TimeSchema.minCheck, TimeSchema.maxCheck,
      TimeSchema.requiredCheck.
    rewrite Hpresent, Hmin, Hmax. simpl.
    destruct (String.eqb_spec s "") as [|_]; [contradiction|]. simpl.
    rewrite orb_true_r. simpl. rewrite !andb_true_iff.
    split.
    + intros [[Hs Hge] Hle].
      destruct (time_bounds_chronological s lo Hs Hlo) as [_ Hge'].
      destruct (time_bounds_chronological s hi Hs Hhi) as [Hle' _].
      split; [exact Hs|]. split; [now apply Hge' | now apply Hle'].
    + intros [Hs [Hge Hle]].
      destruct (time_bounds_chronological s lo Hs Hlo) as [_ Hge'].
      destruct (time_bounds_chronological s hi Hs Hhi) as [Hle' _].
      split; [split; [exact Hs | now apply Hge'] | now apply Hle'].
  - intros s n m -> Hne Hmin Hmax.
    assert (Hpresent : TimeSchema.absent (Some s) = false).
    { unfold TimeSchema.absent. simpl.
      destruct (String.eqb_spec s ""); [contradiction | reflexivity]. }
    unfold TimeSchema.formatCheck, TimeSchema.minCheck, TimeSchema.maxCheck,
      TimeSchema.requiredCheck.
    rewrite Hpresent, Hmin, Hmax. simpl.
    destruct (String.eqb_spec s "") as [|_]; [contradiction|]. simpl.
    now rewrite orb_true_r, !andb_true_r.
Qed.

Lemma X14_time_schema_accepts_witness :
  TimeSchema.accepts SampleFields.officeHours None = false ∧
  (TimeSchema.accepts SampleFields.officeHours (Some "09:15") = true ↔
   TimeSchema.matchesTime "09:15" = true ∧
   TimeSchema.minutesOf "08:00" <= TimeSchema.minutesOf "09:15"
   <= TimeSchema.minutesOf "18:00").
Proof.
  split.
  - apply (X14_time_schema_accepts SampleFields.officeHours None).
    reflexivity.
  - apply (X14_time_schema_accepts SampleFields.officeHours (Some "09:15"))
      with (s := "09:15") (lo := "08:00") (hi := "18:00");
      reflexivity || discriminate.
Defined.

(** X15. A time field starts at 00:00, which has the demanded form; with
    a lower bound given as a valid time, the schema accepts this default
    only when the bound is 00:00 itself, so a time field with a later
    lower bound is invalid until the user changes it. *)
Theorem X15_time_default_and_lower_bound (c : FieldClass.Config)
  (lo : string) :
  FieldClass.type c = FieldClass.TTime →
  FieldClass.min c = Some (inr lo) →
  TimeSchema.matchesTime lo = true →
  FieldClass.getDefaultValue c = FieldClass.AnyValue (VStr "00:00") ∧
  TimeSchema.matchesTime "00:00" = true ∧
  (TimeSchema.accepts c (Some "00:00") = true → lo = "00:00").
Proof.
  intros Htype Hmin Hlo.
  split; [unfold FieldClass.getDefaultValue; now rewrite Htype|].
  split; [reflexivity|].
  rewrite time_accepts_checks, !andb_true_iff.
  intros [[_ Hge] _].
  unfold TimeSchema.minCheck in Hge. rewrite Hmin in Hge. simpl in Hge.
  destruct (time_bounds_chronological "00:00" lo eq_refl Hlo) as [_ Hchron].
  apply Hchron in Hge.
  pose proof (TimeSchemaFacts.minutesOf_range lo Hlo) as Hrange.
  apply TimeSchemaFacts.minutesOf_injective; [exact Hlo | reflexivity |].
  change (TimeSchema.minutesOf "00:00") with 0 in *. lia.
Qed.

Lemma X15_time_default_and_lower_bound_witness :
  FieldClass.getDefaultValue SampleFields.officeHours
  = FieldClass.AnyValue (VStr "00:00") ∧
  TimeSchema.accepts SampleFields.officeHours (Some "00:00") = false.
Proof.
  destruct (X15_time_default_and_lower_bound SampleFields.officeHours "08:00")
    as (Hdef & _ & Hacc); [reflexivity..|].
  split; [exact Hdef|].
  destruct (TimeSchema.accepts SampleFields.officeHours (Some "00:00"));
    [|reflexivity].
  discriminate (Hacc eq_refl).
Defined.

(** * Records, forms and builders *)

Module RecordFacts.
Import JSMap.
Section Facts.
Context {V : Type}.
Implicit Types (m : JSMap.t V) (k : string) (v : V).

Lemma get_None_not_In m k : get k m = None → ¬ In k (keys m).
Proof.
  induction m as [|[k' v'] r IH]; simpl; [tauto|].
  destruct (String.eqb_spec k' k) as [->|Hne]; [discriminate|].
  intros H [Heq|Hin]; [contradiction | now apply IH].
Qed.

Lemma not_In_get_None m k : ¬ In k (keys m) → get k m = None.
Proof.
  induction m as [|[k' v'] r IH]; simpl; [reflexivity|].
  intros Hnot. destruct (String.eqb_spec k' k) as [->|Hne].
  - exfalso. apply Hnot. now left.
  - apply IH. intros Hin. apply Hnot. now right.
Qed.

Lemma keys_set m k v :
  keys (set k v m)
  = match get k m with Some _ => keys m | None => keys m ++ [k] end.
Proof.
  induction m as [|[k' v'] r IH]; simpl; [reflexivity|].
  destruct (String.eqb_spec k' k) as [->|Hne]; simpl; [reflexivity|].
  rewrite IH. now destruct (get k r).
Qed.

Lemma wf_set m k v : wf m → wf (set k v m).
Proof.
  unfold wf. intros Hwf. rewrite keys_set.
  destruct (get k m) eqn:Hget; [exact Hwf|].
  apply List.NoDup_app; [exact Hwf | repeat constructor; intros [] |].
  intros x Hin [Heq|[]]. subst x. now apply (get_None_not_In m k).
Qed.

Lemma wf_empty : wf (@empty V).
Proof. constructor. Qed.

End Facts.

Section Folds.
Context {A V : Type}.
Variable f : A → V.

(** Writing the entries of a record into another, through [f]. *)
Lemma get_fold_set (src : JSMap.t A) (t : JSMap.t V) (k : string) :
  wf src →
  get k (List.fold_left (λ acc kv, set (fst kv) (f (snd kv)) acc) src t)
  = match get k src with
    | Some a => Some (f a)
    | None => get k t
    end.
Proof.
  revert t. induction src as [|[k0 a0] r IH]; intros t Hwf; simpl.
  - reflexivity.
  - unfold wf in Hwf. simpl in Hwf. apply List.NoDup_cons_iff in Hwf.
    destruct Hwf as [Hnot Hwf].
    rewrite (IH _ Hwf).
    destruct (String.eqb_spec k0 k) as [->|Hne].
    + rewrite (not_In_get_None r k Hnot). apply JSMapFacts.get_set_eq.
    + destruct (get k r); [reflexivity|].
      now apply JSMapFacts.get_set_ne.
Qed.

Lemma wf_fold_set (src : JSMap.t A) (t : JSMap.t V) :
  wf t →
  wf (List.fold_left (λ acc kv, set (fst kv) (f (snd kv)) acc) src t).
Proof.
  revert t. induction src as [|[k0 a0] r IH]; intros t Hwf; simpl.
  - exact Hwf.
  - apply IH. now apply wf_set.
Qed.

End Folds.
End RecordFacts.

Module FormFacts.
Import FieldClass FormClass.

Lemma get_assign {V : Type} (t src : JSMap.t V) (k : string) :
  JSMap.wf src →
  JSMap.get k (assign t src)
  = match JSMap.get k src with Some v => Some v | None => JSMap.get k t end.
Proof. apply (RecordFacts.get_fold_set (λ v, v)). Qed.

Lemma wf_assign {V : Type} (t src : JSMap.t V) :
  JSMap.wf t → JSMap.wf (assign t src).
Proof. apply (RecordFacts.wf_fold_set (λ v, v)). Qed.

Lemma wf_spread {V : Type} (a b : JSMap.t V) : JSMap.wf (spread a b).
Proof. apply wf_assign, wf_assign, RecordFacts.wf_empty. Qed.

Lemma get_spread {V : Type} (a b : JSMap.t V) (k : string) :
  JSMap.wf a → JSMap.wf b →
  JSMap.get k (spread a b)
  = match JSMap.get k b with Some v => Some v | None => JSMap.get k a end.
Proof.
  intros Ha Hb. unfold spread.
  rewrite (get_assign _ b k Hb), (get_assign _ a k Ha).
  now destruct (JSMap.get k a).
Qed.

Lemma get_addDefaults (flds : JSMap.t Config) (d : JSMap.t jsany)
  (k : string) :
  JSMap.wf flds →
  JSMap.get k (addDefaults flds d)
  = match JSMap.get k flds with
    | Some c => Some (getDefaultValue c)
    | None => JSMap.get k d
    end.
Proof. apply (RecordFacts.get_fold_set getDefaultValue). Qed.

Lemma wf_addDefaults (flds : JSMap.t Config) (d : JSMap.t jsany) :
  JSMap.wf d → JSMap.wf (addDefaults flds d).
Proof. apply (RecordFacts.wf_fold_set getDefaultValue). Qed.

Lemma extract_snoc (ss : list Section) (s : Section) :
  extractFieldsFromSections (ss ++ [s])
  = assign (extractFieldsFromSections ss) (fields s).
Proof.
  unfold extractFieldsFromSections. now rewrite List.fold_left_app.
Qed.

Lemma wf_extract (ss : list Section) : JSMap.wf (extractFieldsFromSections ss).
Proof.
  induction ss as [|s ss IH] using List.rev_ind.
  - apply RecordFacts.wf_empty.
  - rewrite extract_snoc. now apply wf_assign.
Qed.

Lemma get_extract_app (before after : list Section) (k : string) :
  wellFormed after →
  (∀ s, In s after → JSMap.get k (fields s) = None) →
  JSMap.get k (extractFieldsFromSections (before ++ after))
  = JSMap.get k (extractFieldsFromSections before).
Proof.
  induction after as [|s after IH] using List.rev_ind; intros Hwf Hnone.
  - now rewrite List.app_nil_r.
  - apply Forall_app in Hwf as [Hwf Hs].
    apply Forall_cons in Hs as [Hs _].
    rewrite List.app_assoc, extract_snoc, (get_assign _ _ _ Hs).
    rewrite (Hnone s) by (apply List.in_app_iff; right; now left).
    apply IH; [exact Hwf|].
    intros s' Hin. apply Hnone. apply List.in_app_iff. now left.
Qed.

End FormFacts.

(** X16. A name declared by several sections of a form resolves to the
    field of the last section that declares it; a name no section
    declares is not a field of the form.  (Each section's record holds
    one entry per key.) *)
Theorem X16_last_section_wins (before after : list FormClass.Section)
  (s : FormClass.Section) (k : string) (c : FieldClass.Config) :
  FormClass.wellFormed (before ++ s :: after) →
  (∀ s', In s' after → JSMap.get k (FormClass.fields s') = None) →
  (JSMap.get k (FormClass.fields s) = Some c →
   JSMap.get k
     (FormClass.form_fields (FormClass.newForm (before ++ s :: after)))
   = Some c) ∧
  ((∀ s', In s' (before ++ [s]) → JSMap.get k (FormClass.fields s') = None) →
   JSMap.get k
     (FormClass.form_fields (FormClass.newForm (before ++ s :: after)))
   = None).
Proof.
  intros Hwf Hafter. cbn [FormClass.form_fields FormClass.newForm].
  apply Forall_app in Hwf as [Hbefore Hrest].
  apply Forall_cons in Hrest as [Hs Hafterwf].
  change (before ++ s :: after) with (before ++ [s] ++ after).
  rewrite List.app_assoc.
  rewrite (FormFacts.get_extract_app _ after k Hafterwf Hafter).
  split.
  - intros Hget.
    now rewrite FormFacts.extract_snoc, (FormFacts.get_assign _ _ _ Hs), Hget.
  - intros Hnone.
    rewrite <- (List.app_nil_l (before ++ [s])).
    rewrite (FormFacts.get_extract_app [] (before ++ [s]) k);
      [reflexivity | | exact Hnone].
    apply Forall_app. split; [exact Hbefore | now constructor].
Qed.

Lemma X16_last_section_wins_witness :
  JSMap.get "title"
    (FormClass.form_fields
       (FormClass.newForm
          ([SampleForms.general] ++ SampleForms.overriding
             :: [SampleForms.uploads])))
  = Some SampleForms.titleFlag.
Proof.
  apply (X16_last_section_wins [SampleForms.general] [SampleForms.uploads]
           SampleForms.overriding "title" SampleForms.titleFlag).
  - repeat constructor; simpl; intros H;
      repeat (destruct H as [H|H]; try discriminate H); exact H.
  - intros s' [<-|[]]. reflexivity.
  - reflexivity.
Defined.

Module BuilderFacts.
Import FieldClass FormClass FormFacts.

Lemma get_form_defaults (ss : list Section) (k : string) :
  JSMap.get k (form_defaultValues (newForm ss))
  = getDefaultValue <$> JSMap.get k (form_fields (newForm ss)).
Proof.
  cbn [form_defaultValues form_fields newForm]. unfold buildDefaultValues.
  rewrite (get_addDefaults _ _ _ (wf_extract ss)).
  now destruct (JSMap.get k (extractFieldsFromSections ss)).
Qed.

Lemma wf_form_defaults (ss : list Section) :
  JSMap.wf (form_defaultValues (newForm ss)).
Proof. apply wf_addDefaults, RecordFacts.wf_empty. Qed.





Lemma get_build (b : FormBuilder) (k : string) :
  JSMap.wf (builder_defaultValues b) →
  JSMap.get k (form_defaultValues (build b))
  = match JSMap.get k (builder_defaultValues b) with
    | Some v => Some v
    | None =>
        getDefaultValue
          <$> JSMap.get k (extractFieldsFromSections (builder_sections b))
    end.
Proof.
  intros Hb. unfold build, setDefaultValues. cbn [form_defaultValues].
  rewrite (get_spread _ _ _ (wf_form_defaults _) Hb).
  now rewrite get_form_defaults.
Qed.

End BuilderFacts.



(** X18. Explicit default values and sections are applied in the order
    the builder receives them.  Defaults given last win over the fields'
    own defaults and leave every other name as it was; a section added
    after them resets the names it declares to the defaults of its
    fields. *)
Theorem X18_builder_defaults_in_call_order (b : FormClass.FormBuilder)
  (values : JSMap.t FieldClass.jsany) (s : FormClass.Section) (k : string) :
  JSMap.wf (FormClass.builder_defaultValues b) →
  JSMap.wf values →
  JSMap.wf (FormClass.fields s) →
  JSMap.get k
    (FormClass.form_defaultValues
       (FormClass.build (FormClass.defaultValues values b)))
  = match JSMap.get k values with
    | Some v => Some v
    | None => JSMap.get k (FormClass.form_defaultValues (FormClass.build b))
    end ∧
  (∀ c, JSMap.get k (FormClass.fields s) = Some c →
        JSMap.get k
          (FormClass.form_defaultValues
             (FormClass.build
                (FormClass.section s (FormClass.defaultValues values b))))
        = Some (FieldClass.getDefaultValue c)).
Proof.
  intros Hb Hvalues Hs. split.
  - rewrite BuilderFacts.get_build by apply FormFacts.wf_spread.
    rewrite (BuilderFacts.get_build b k Hb).
    cbn [FormClass.builder_defaultValues FormClass.builder_sections
           FormClass.defaultValues].
    rewrite (FormFacts.get_spread _ _ _ Hb Hvalues).
    now destruct (JSMap.get k values),
      (JSMap.get k (FormClass.builder_defaultValues b)).
  - intros c Hc.
    rewrite BuilderFacts.get_build
      by (apply FormFacts.wf_addDefaults, FormFacts.wf_spread).
    cbn [FormClass.builder_defaultValues FormClass.section].
    now rewrite (FormFacts.get_addDefaults _ _ _ Hs), Hc.
Qed.

Lemma X18_builder_defaults_in_call_order_witness :
  JSMap.get "title"
    (FormClass.form_defaultValues
       (FormClass.build
          (FormClass.defaultValues SampleForms.explicit
             (FormClass.sections [SampleForms.general]
                FormClass.newBuilder))))
  = Some (FieldClass.AnyValue (VStr "Untitled")) ∧
  JSMap.get "title"
    (FormClass.form_defaultValues
       (FormClass.build
          (FormClass.section SampleForms.general
             (FormClass.defaultValues SampleForms.explicit
                FormClass.newBuilder))))
  = Some (FieldClass.AnyValue (VStr "")).
Proof.
  split.
  - destruct (X18_builder_defaults_in_call_order
                (FormClass.sections [SampleForms.general]
                   FormClass.newBuilder)
                SampleForms.explicit SampleForms.general "title")
      as [H _].
    + repeat constructor; simpl; intros H;
        repeat (destruct H as [H|H]; try discriminate H); exact H.
    + repeat constructor; simpl; intros H; exact H.
    + repeat constructor; simpl; intros H;
        repeat (destruct H as [H|H]; try discriminate H); exact H.
    + exact H.
  - destruct (X18_builder_defaults_in_call_order FormClass.newBuilder
                SampleForms.explicit SampleForms.general "title")
      as [_ H].
    + constructor.
    + repeat constructor; simpl; intros H; exact H.
    + repeat constructor; simpl; intros H;
        repeat (destruct H as [H|H]; try discriminate H); exact H.
    + exact (H SampleFields.title eq_refl).
Defined.

(** * Validation on focus *)

Module FocusFacts.
Import FormComponent.

Lemma indexOf_absent (x : string) (l : list string) :
  ¬ In x l → indexOf x l = -1.
Proof.
  induction l as [|y r IH]; simpl; [reflexivity|].
  intros Hnot. destruct (String.eqb_spec y x) as [->|Hne].
  - exfalso. apply Hnot. now left.
  - rewrite IH by (intros H; apply Hnot; now right). reflexivity.
Qed.

(** The index of a present element: the elements before it differ from
    it, and it closes the prefix of that length plus one. *)
Lemma indexOf_present (x : string) (l : list string) :
  In x l →
  0 <= indexOf x l ∧
  ∃ earlier later,
    l = earlier ++ x :: later ∧ ¬ In x earlier ∧
    indexOf x l = Z.of_nat (List.length earlier).
Proof.
  induction l as [|y r IH]; simpl; [intros []|].
  intros Hin. destruct (String.eqb_spec y x) as [->|Hne].
  - split; [lia|]. exists [], r. repeat split. intros [].
  - destruct Hin as [Heq|Hin]; [contradiction|].
    destruct (IH Hin) as (Hpos & earlier & later & -> & Hnot & Hidx).
    rewrite Hidx in *.
    destruct (Z.ltb_spec (Z.of_nat (List.length earlier)) 0); [lia|].
    split; [lia|].
    exists (y :: earlier), later. simpl.
    split; [reflexivity|]. split; [|lia].
    intros [Heq|Hin']; [now apply Hne | now apply Hnot].
Qed.

Lemma triggered_run (names cleared_names : list string) :
  triggered (List.map Trigger names ++ [ClearErrors cleared_names]) = names ∧
  cleared (List.map Trigger names ++ [ClearErrors cleared_names])
  = cleared_names.
Proof.
  unfold triggered, cleared.
  induction names as [|n names [IH1 IH2]]; simpl.
  - now rewrite List.app_nil_r.
  - now rewrite IH1, IH2.
Qed.

End FocusFacts.

(** X19. Focusing a field validates the fields of the form up to and
    including the focused one, in form order, and clears the errors of
    exactly the untouched fields after it; the validated names followed
    by the remaining names are all the form's names.  For a field that is
    not part of the form nothing is validated and the errors of all
    untouched fields are cleared. *)
Theorem X19_focus_validates_up_to_field (form : FormClass.Form)
  (touched : string → bool) (field : FieldClass.Config) :
  (∃ later,
     FormComponent.fieldNames form
     = FormComponent.triggered
         (FormComponent.validateFormFields form touched field) ++ later ∧
     FormComponent.cleared
       (FormComponent.validateFormFields form touched field)
     = List.filter (λ n, negb (touched n)) later) ∧
  (In (FieldClass.name field) (FormComponent.fieldNames form) →
   ∃ earlier,
     FormComponent.triggered
       (FormComponent.validateFormFields form touched field)
     = earlier ++ [FieldClass.name field] ∧
     ¬ In (FieldClass.name field) earlier) ∧
  (¬ In (FieldClass.name field) (FormComponent.fieldNames form) →
   FormComponent.triggered
     (FormComponent.validateFormFields form touched field) = [] ∧
   FormComponent.cleared
     (FormComponent.validateFormFields form touched field)
   = List.filter (λ n, negb (touched n)) (FormComponent.fieldNames form)).
Proof.
  unfold FormComponent.validateFormFields.
  set (names := FormComponent.fieldNames form).
  set (idx := FormComponent.indexOf (FieldClass.name field) names).
  destruct (FocusFacts.triggered_run
              (FormComponent.sliceTo (idx + 1) names)
              (List.filter (λ n, negb (touched n))
                 (FormComponent.sliceFrom (idx + 1) names)))
    as [-> ->].
  split; [|split].
  - exists (FormComponent.sliceFrom (idx + 1) names).
    split; [|reflexivity].
    unfold FormComponent.sliceTo, FormComponent.sliceFrom.
    now rewrite List.firstn_skipn.
  - intros Hin.
    destruct (FocusFacts.indexOf_present _ _ Hin)
      as (_ & earlier & later & Hnames & Hnot & Hidx).
    exists earlier. split; [|exact Hnot].
    unfold FormComponent.sliceTo. subst idx. rewrite Hidx, Hnames.
    replace (Z.to_nat (Z.of_nat (List.length earlier) + 1))
      with (List.length earlier + 1)%nat by lia.
    rewrite List.firstn_app.
    replace (List.length earlier + 1 - List.length earlier)%nat
      with 1%nat by lia.
    rewrite List.firstn_all2 by lia. reflexivity.
  - intros Hnot. subst idx.
    rewrite (FocusFacts.indexOf_absent _ _ Hnot).
    split; reflexivity.
Qed.

Lemma X19_focus_validates_up_to_field_witness :
  ∃ earlier,
    FormComponent.triggered
      (FormComponent.validateFormFields
         (FormClass.newForm [SampleForms.general; SampleForms.uploads])
         (λ _, false) SampleFields.avatar)
    = earlier ++ ["avatar"] ∧ ¬ In "avatar" earlier.
Proof.
  apply (X19_focus_validates_up_to_field
           (FormClass.newForm [SampleForms.general; SampleForms.uploads])
           (λ _, false) SampleFields.avatar).
  simpl. auto.
Defined.

(** * Reset and default value of a file field *)

(** X20. A form reset puts a file field back to its default value: with
    the properties the form hands to the upload component, the value the
    component emits on reset is the value [getDefaultValue] gives for the
    field, the empty list in multiple mode and null otherwise. *)
Theorem X20_reset_emits_default_value (c : FieldClass.Config)
  (sys : System) :
  FieldClass.type c = FieldClass.TFile →
  FieldClass.AnyValue
    (formValue
       (step (Field.fileFieldProps (FieldClass.files c)) (EvFormReset true)
          sys))
  = FieldClass.getDefaultValue c ∧
  FieldClass.getDefaultValue c
  = FieldClass.AnyValue
      (if Field.isMultiple (FieldClass.files c) then VArr [] else VNull).
Proof.
  intros Htype. unfold FieldClass.getDefaultValue. rewrite Htype.
  unfold Field.isMultiple.
  split; [|reflexivity].
  unfold step, dispatch. cbn [formValue].
  unfold handleFormReset. run_handler.
  unfold Field.isMultiple.
  now destruct (opt_bool_truthy (Field.cfg_isMultiple (FieldClass.files c))).
Qed.

Lemma X20_reset_emits_default_value_witness :
  FieldClass.AnyValue
    (formValue
       (step (Field.fileFieldProps (FieldClass.files SampleFields.attachments))
          (EvFormReset true)
          (run (Sample.multiple None) Sample.twoFinished
             (initialSystem (VArr [])))))
  = FieldClass.getDefaultValue SampleFields.attachments.
Proof.
  apply (X20_reset_emits_default_value SampleFields.attachments
           (run (Sample.multiple None) Sample.twoFinished
              (initialSystem (VArr [])))).
  reflexivity.
Defined.

(** * Where the committed references come from *)

Lemma onClick_emits (p : Props) (id : string) (s : State) (v : jsvalue) :
  In v (emitted (effects_of (onClick p id) s)) →
  ∀ r, In r (references v) → In r (references (view_value (view s))).
Proof.
  unfold onClick. run_handler.
  destruct (JSMap.get id (view_fileMetadata (view s))); [|intros []].
  destruct (view_uploadProgress (view s) !! id).
  - run_handler. intros [].
  - unfold handleRemove. run_handler. intros [<-|[]] r.
    destruct (opt_bool_truthy (isMultiple p)); [|intros []].
    destruct (view_value (view s)); try (intros []).
    simpl. intros Hin. now apply List.filter_In in Hin as [Hin _].
Qed.

Lemma last_In {A : Type} (l : list A) (d x : A) :
  List.last l d = x → x = d ∨ In x l.
Proof.
  induction l as [|a l IH]; simpl; [auto|].
  destruct l as [|b l]; [intros <-; auto|].
  intros H. destruct (IH H) as [->|Hin]; auto.
Qed.

(** One step: a reference of the form's value or of the closure's value
    was there before, in one of the two, or is the usable reference of
    the finish event just handled. *)
Lemma step_references (p : Props) (ev : Event) (sys : System) (r : string) :
  In r (references (formValue (step p ev sys))) ∨
  In r (references (view_value (view (component (step p ev sys))))) →
  In r (references (formValue sys)) ∨
  In r (references (view_value (view (component sys)))) ∨
  ∃ item, ev = EvItemFinish item ∧ usableUrl item = Some r.
Proof.
  destruct ev as [file|item|item|item|item|id|contains|b|];
    unfold step, dispatch; cbn [component formValue].
  - assert (Hs := fileFilter_state p file (component sys)).
    assert (He := fileFilter_effects p file (component sys)).
    destruct (result_of (fileFilter p file) (component sys));
      cbn [component formValue]; rewrite Hs.
    + rewrite He. simpl. tauto.
    + destruct He as [m ->]. simpl. tauto.
  - cbn. tauto.
  - rewrite onItemProgress_state.
    assert (He : effects_of (onItemProgress item) (component sys) = []).
    { unfold onItemProgress.
      destruct (Qltb (item_completed item) (100 # 1)); reflexivity. }
    rewrite He. cbn. tauto.
  - cbn. tauto.
  - destruct (is_finished (item_state item)) eqn:Hst.
    + destruct (usableUrl item) as [url|] eqn:Hurl.
      * assert (Hfin : item_state item = StFinished)
          by (destruct (item_state item); try discriminate; reflexivity).
        destruct (onItemFinish_confirmed p item (component sys) url Hfin Hurl)
          as [-> ->].
        cbn. destruct (opt_bool_truthy (isMultiple p)); cbn.
        -- rewrite List.in_app_iff. simpl.
           intros [[Hin|[<-|[]]]|Hin]; eauto.
           right. left.
           destruct (view_value (view (component sys))); simpl in *; tauto.
        -- intros [[<-|[]]|Hin]; eauto.
      * assert (Hs : state_after (onItemFinish p item) (component sys)
                     = decrementUploading (component sys)).
        { unfold onItemFinish. rewrite Hst, Hurl. reflexivity. }
        assert (He : effects_of (onItemFinish p item) (component sys) = []).
        { unfold onItemFinish. rewrite Hst, Hurl. reflexivity. }
        rewrite Hs, He. cbn. tauto.
    + assert (Hs : state_after (onItemFinish p item) (component sys)
                   = decrementUploading (component sys)).
      { unfold onItemFinish. rewrite Hst. reflexivity. }
      assert (He : effects_of (onItemFinish p item) (component sys) = []).
      { unfold onItemFinish. rewrite Hst. reflexivity. }
      rewrite Hs, He. cbn. tauto.
  - assert (Hview : view (state_after (onClick p id) (component sys))
                    = view (component sys)).
    { unfold onClick. run_handler.
      destruct (JSMap.get id (view_fileMetadata (view (component sys))));
        [|reflexivity].
      destruct (view_uploadProgress (view (component sys)) !! id);
        reflexivity. }
    rewrite Hview. intros [Hin|Hin]; [|tauto].
    destruct (last_In _ _ _ eq_refl
                : List.last (emitted (effects_of (onClick p id)
                                        (component sys))) (formValue sys)
                  = formValue sys ∨ _) as [Heq|Hemit].
    + rewrite Heq in Hin. tauto.
    + right. left. exact (onClick_emits p id (component sys) _ Hemit r Hin).
  - destruct contains.
    + rewrite handleFormReset_state. cbn.
      destruct (opt_bool_truthy (isMultiple p)); cbn; tauto.
    + cbn. tauto.
  - rewrite cleanupAllFiles_state.
    assert (He : emitted (effects_of (cleanupAllFiles b) (component sys))
                 = []).
    { unfold cleanupAllFiles. run_handler.
      destruct (_ =? _)%nat; [reflexivity|]. destruct b; reflexivity. }
    rewrite He. cbn. tauto.
  - cbn. tauto.
Qed.

Lemma run_references (p : Props) (evs : list Event) (sys : System)
  (r : string) :
  In r (references (formValue (run p evs sys))) ∨
  In r (references (view_value (view (component (run p evs sys))))) →
  In r (references (formValue sys)) ∨
  In r (references (view_value (view (component sys)))) ∨
  ∃ item, In (EvItemFinish item) evs ∧ usableUrl item = Some r.
Proof.
  revert sys. induction evs as [|ev evs IH]; intros sys H.
  - simpl in H. tauto.
  - rewrite run_cons in H.
    destruct (IH _ H) as [H1|[H1|(item & Hin & Hurl)]].
    + destruct (step_references p ev sys r (or_introl H1))
        as [H2|[H2|(item & -> & Hurl)]]; [tauto | tauto |].
      right. right. exists item. split; [now left | exact Hurl].
    + destruct (step_references p ev sys r (or_intror H1))
        as [H2|[H2|(item & -> & Hurl)]]; [tauto | tauto |].
      right. right. exists item. split; [now left | exact Hurl].
    + right. right. exists item. split; [now right | exact Hurl].
Qed.

(** X21. The committed value holds only confirmed references: in every
    state reached from the initial one, each reference in the form's
    value was in the initial value or is the usable reference of a finish
    event of the trace. *)
Theorem X21_committed_references_were_confirmed (p : Props)
  (evs : list Event) (v : jsvalue) (r : string) :
  In r (references (formValue (run p evs (initialSystem v)))) →
  In r (references v) ∨
  ∃ item, In (EvItemFinish item) evs ∧ usableUrl item = Some r.
Proof.
  intros Hin.
  destruct (run_references p evs (initialSystem v) r (or_introl Hin))
    as [H|[H|H]]; auto.
Qed.

Lemma X21_committed_references_were_confirmed_witness :
  In "r1" (references (VArr [])) ∨
  ∃ item, In (EvItemFinish item) Sample.twoFinished ∧
          usableUrl item = Some "r1".
Proof.
  apply (X21_committed_references_were_confirmed (Sample.multiple None)
           Sample.twoFinished (VArr []) "r1").
  vm_compute. auto.
Defined.

(** * The value of a select *)

(** X22. The select never receives [undefined]: in multiple mode it
    receives a list whatever the form holds, in single mode null stands
    for a missing value.  What a change stores is what the select shows
    next, for a list in multiple mode and for an option or a cleared
    select in single mode; preparing a value twice changes nothing. *)
Theorem X22_select_value_round_trip (isMultiple : bool)
  (v : FieldComponent.selvalue) :
  FieldComponent.selectValue isMultiple v ≠ FieldComponent.SelUndefined ∧
  (isMultiple = true →
   ∃ l, FieldComponent.selectValue isMultiple v = FieldComponent.SelOptions l) ∧
  FieldComponent.selectValue isMultiple
    (FieldComponent.selectValue isMultiple v)
  = FieldComponent.selectValue isMultiple v ∧
  (FieldComponent.sel_truthy v = false →
   FieldComponent.selectValue isMultiple
     (FieldComponent.selectOnChange isMultiple v)
   = (if isMultiple then FieldComponent.SelOptions []
      else FieldComponent.SelNull)) ∧
  (∀ l, isMultiple = true → v = FieldComponent.SelOptions l →
        FieldComponent.selectValue isMultiple
          (FieldComponent.selectOnChange isMultiple v) = v) ∧
  (∀ o, isMultiple = false → v = FieldComponent.SelOption o →
        FieldComponent.selectValue isMultiple
          (FieldComponent.selectOnChange isMultiple v) = v).
Proof.
  split; [destruct isMultiple, v; discriminate|].
  split; [intros ->; destruct v; simpl; eauto|].
  split; [destruct isMultiple, v; reflexivity|].
  split; [destruct isMultiple, v; simpl; intros H;
          reflexivity || discriminate|].
  split; [intros l -> ->; reflexivity | intros o -> ->; reflexivity].
Qed.

Lemma X22_select_value_round_trip_witness :
  FieldComponent.selectValue true
    (FieldComponent.selectOnChange true FieldComponent.SelNull)
  = FieldComponent.SelOptions [] ∧
  FieldComponent.selectValue false
    (FieldComponent.selectOnChange false
       (FieldComponent.SelOption (FieldComponent.mkOption "One" "1")))
  = FieldComponent.SelOption (FieldComponent.mkOption "One" "1").
Proof.
  split.
  - apply (X22_select_value_round_trip true FieldComponent.SelNull).
    reflexivity.
  - apply (X22_select_value_round_trip false
             (FieldComponent.SelOption (FieldComponent.mkOption "One" "1")))
      with (o := FieldComponent.mkOption "One" "1"); reflexivity.
Defined.
